(** * HealthOS backend: idempotent ingestion of HealthKit bundles

    A shallow embedding of [backend/src/healthos_backend/app.py]: the pydantic
    models of the request body, the [ingest_events] table, [_insert_event] and
    the [POST /ingest/healthkit] handler, followed by the properties of the
    ingestion contract. *)

From Stdlib Require Import ZArith List String Ascii Bool Lia.
From Stdlib Require Import Floats.SpecFloat.
From Stdlib Require Import DecimalString DecimalZ DecimalPos.
Import ListNotations.
Open Scope string_scope.
Open Scope list_scope.

(* ================================================================= *)
(** ** Values read from a request body *)

(** What [json.loads] hands to the framework: [None], [bool], [int], [float],
    [str], [list] and [dict].  A Python [float] is an IEEE 754 binary64 value;
    a [dict] keeps its items in insertion order. *)
#[local] Unset Elimination Schemes.
Inductive json : Type :=
| JNull
| JBool (b : bool)
| JInt (z : Z)
| JFloat (f : spec_float)
| JStr (s : string)
| JList (l : list json)
| JDict (d : list (string * json)).
#[local] Set Elimination Schemes.

(** [d.get(k)] *)
Fixpoint dict_get (k : string) (d : list (string * json)) : option json :=
  match d with
  | [] => None
  | (k', v) :: d' => if String.eqb k k' then Some v else dict_get k d'
  end.

Definition keys (d : list (string * json)) : list string := map fst d.

Definition mem (k : string) (ks : list string) : bool :=
  existsb (String.eqb k) ks.


(** [str(n)] for an [int] *)
Definition str_of_int (n : Z) : string := NilZero.string_of_int (Z.to_int n).

(* ================================================================= *)
(** ** The request models *)

Module Source.
Inductive t : Set := healthkit | manual.

Definition value (s : t) : string :=
  match s with
  | healthkit => "healthkit"
  | manual => "manual"
  end.

Definition members : list t := [healthkit; manual].

Definition eqb (a b : t) : bool :=
  match a, b with
  | healthkit, healthkit | manual, manual => true
  | _, _ => false
  end.
End Source.

Module WorkoutDTO.
Record t : Set := mk {
  source_workout_id : string;
  activity_type : string;
  started_at : string;
  ended_at : option string;
  duration_sec : option spec_float;
  active_energy_kcal : option spec_float;
  distance_m : option spec_float
}.

Definition fields : list string :=
  ["source_workout_id"; "activity_type"; "started_at"; "ended_at";
   "duration_sec"; "active_energy_kcal"; "distance_m"].
End WorkoutDTO.

Module DailyMetricType.
Inductive t : Set := steps | active_energy_kcal | sleep_hours | body_weight_lbs.

Definition value (m : t) : string :=
  match m with
  | steps => "steps"
  | active_energy_kcal => "active_energy_kcal"
  | sleep_hours => "sleep_hours"
  | body_weight_lbs => "body_weight_lbs"
  end.

Definition members : list t :=
  [steps; active_energy_kcal; sleep_hours; body_weight_lbs].
End DailyMetricType.

Module DailyMetricDTO.
Record t : Set := mk {
  date : string;
  metric_type : DailyMetricType.t;
  value : spec_float;
  unit : string
}.

Definition fields : list string := ["date"; "metric_type"; "value"; "unit"].
End DailyMetricDTO.

Module IngestPayload.
Record t : Set := mk {
  schema_version : Z;
  event_id : string;
  user_id : string;
  source : Source.t;
  sent_at : string;
  device_id : string;
  workouts : list WorkoutDTO.t;
  daily_metrics : list DailyMetricDTO.t
}.

Definition fields : list string :=
  ["schema_version"; "event_id"; "user_id"; "source"; "sent_at"; "device_id";
   "workouts"; "daily_metrics"].
End IngestPayload.

(* ================================================================= *)
(** ** Validation results *)

(** The [type] of a pydantic error line, as far as these models raise them. *)
Inductive err_kind : Set :=
| missing
| extra_forbidden
| string_type
| int_type
| float_type
| enum
| list_type
| model_type.

Inductive loc_item : Set :=
| Key (k : string)
| Idx (i : nat).

Record error : Set := mkError { loc : list loc_item; kind : err_kind }.

(** Either the validated value or every error line found. *)
Inductive result (A : Type) : Type :=
| Ok (a : A)
| Err (es : list error).

Arguments Ok {A} a.
Arguments Err {A} es.

Definition is_ok {A} (r : result A) : bool :=
  match r with Ok _ => true | Err _ => false end.

Definition errors {A} (r : result A) : list error :=
  match r with Ok _ => [] | Err es => es end.

Definition fmap {A B} (f : A -> B) (r : result A) : result B :=
  match r with
  | Ok a => Ok (f a)
  | Err es => Err es
  end.

(** Apply a validated constructor to the next field; errors of both sides are
    kept, in field order. *)
Definition ap {A B} (rf : result (A -> B)) (ra : result A) : result B :=
  match rf, ra with
  | Ok f, Ok a => Ok (f a)
  | Ok _, Err es => Err es
  | Err es, Ok _ => Err es
  | Err es, Err es' => Err (es ++ es')
  end.

Notation "f <$> r" := (fmap f r) (at level 61, left associativity).
Notation "rf <*> ra" := (ap rf ra) (at level 61, left associativity).

Definition fail {A} (k : err_kind) : result A := Err [mkError [] k].

(** Errors raised under a field or a list index carry it in front of [loc]. *)
Definition under {A} (i : loc_item) (r : result A) : result A :=
  match r with
  | Ok a => Ok a
  | Err es => Err (map (fun e => mkError (i :: loc e) (kind e)) es)
  end.

(** Failure of the whole model on the extra keys, reported after the fields'
    own errors ([extra="forbid"]). *)
Definition forbid {A} (extras : list string) (r : result A) : result A :=
  match extras with
  | [] => r
  | _ :: _ =>
      Err (errors r ++ map (fun k => mkError [Key k] extra_forbidden) extras)
  end.

Definition extra_keys (fields : list string) (d : list (string * json)) : list string :=
  filter (fun k => negb (mem k fields)) (keys d).

(* ================================================================= *)
(** ** Validation of a request body against the models *)

Section Validation.

(** pydantic validates in lax mode: an [int] field also takes some floats,
    strings and booleans, a [float] field some integers and strings.  Those
    conversions are the library's; the development is carried out for any of
    them, and assumes at most that a JSON integer is taken as it is by an
    [int] field and a JSON float by a [float] field. *)
Variable lax_int : json -> option Z.
Variable lax_float : json -> option spec_float.

Definition validate_str (j : json) : result string :=
  match j with
  | JStr s => Ok s
  | _ => fail string_type
  end.

Definition validate_int (j : json) : result Z :=
  match lax_int j with
  | Some z => Ok z
  | None => fail int_type
  end.

Definition validate_float (j : json) : result spec_float :=
  match lax_float j with
  | Some f => Ok f
  | None => fail float_type
  end.

(** [Optional[T]] *)
Definition optional {A} (v : json -> result A) (j : json) : result (option A) :=
  match j with
  | JNull => Ok None
  | _ => Some <$> v j
  end.

(** A [str]-valued [Enum]: the input must be the value of a member. *)
Definition validate_enum {E} (value : E -> string) (members : list E)
           (j : json) : result E :=
  match j with
  | JStr s =>
      match find (fun m => String.eqb s (value m)) members with
      | Some m => Ok m
      | None => fail enum
      end
  | _ => fail enum
  end.

Definition validate_Source : json -> result Source.t :=
  validate_enum Source.value Source.members.

Definition validate_DailyMetricType : json -> result DailyMetricType.t :=
  validate_enum DailyMetricType.value DailyMetricType.members.

(** [List[T]]: every item is validated, under its index. *)
Fixpoint validate_items {A} (v : json -> result A) (i : nat) (l : list json)
  : result (list A) :=
  match l with
  | [] => Ok []
  | x :: l' => Ok cons <*> under (Idx i) (v x) <*> validate_items v (S i) l'
  end.

Definition validate_list {A} (v : json -> result A) (j : json) : result (list A) :=
  match j with
  | JList l => validate_items v 0 l
  | _ => fail list_type
  end.

(** A field of a model: validated under its name when the key is there,
    else its default, else reported missing. *)
Definition field {A} (d : list (string * json)) (name : string)
           (v : json -> result A) (default : option A) : result A :=
  match dict_get name d with
  | Some x => under (Key name) (v x)
  | None =>
      match default with
      | Some a => Ok a
      | None => Err [mkError [Key name] missing]
      end
  end.

Definition required {A} d name (v : json -> result A) : result A :=
  field d name v None.

Definition defaulted {A} d name (v : json -> result A) (a : A) : result A :=
  field d name v (Some a).

Definition validate_WorkoutDTO (j : json) : result WorkoutDTO.t :=
  match j with
  | JDict d =>
      forbid (extra_keys WorkoutDTO.fields d)
        (Ok WorkoutDTO.mk
           <*> required d "source_workout_id" validate_str
           <*> required d "activity_type" validate_str
           <*> required d "started_at" validate_str
           <*> defaulted d "ended_at" (optional validate_str) None
           <*> defaulted d "duration_sec" (optional validate_float) None
           <*> defaulted d "active_energy_kcal" (optional validate_float) None
           <*> defaulted d "distance_m" (optional validate_float) None)
  | _ => fail model_type
  end.

Definition validate_DailyMetricDTO (j : json) : result DailyMetricDTO.t :=
  match j with
  | JDict d =>
      forbid (extra_keys DailyMetricDTO.fields d)
        (Ok DailyMetricDTO.mk
           <*> required d "date" validate_str
           <*> required d "metric_type" validate_DailyMetricType
           <*> required d "value" validate_float
           <*> required d "unit" validate_str)
  | _ => fail model_type
  end.

Definition validate_IngestPayload (j : json) : result IngestPayload.t :=
  match j with
  | JDict d =>
      forbid (extra_keys IngestPayload.fields d)
        (Ok IngestPayload.mk
           <*> defaulted d "schema_version" validate_int 1%Z
           <*> required d "event_id" validate_str
           <*> defaulted d "user_id" validate_str "matt"
           <*> defaulted d "source" validate_Source Source.healthkit
           <*> required d "sent_at" validate_str
           <*> required d "device_id" validate_str
           <*> defaulted d "workouts" (validate_list validate_WorkoutDTO) []
           <*> defaulted d "daily_metrics" (validate_list validate_DailyMetricDTO) [])
  | _ => fail model_type
  end.

End Validation.

(** The least conversions: numbers of the field's own kind only. *)
Definition exact_int (j : json) : option Z :=
  match j with JInt z => Some z | _ => None end.

Definition exact_float (j : json) : option spec_float :=
  match j with JFloat f => Some f | _ => None end.

(** [model_dump()] as [json.dumps] renders it: fields in declaration order,
    enum members by their value, [None] as [null]. *)
Definition dump_opt {A} (f : A -> json) (o : option A) : json :=
  match o with
  | Some a => f a
  | None => JNull
  end.

Definition dump_WorkoutDTO (w : WorkoutDTO.t) : json :=
  JDict [("source_workout_id", JStr (WorkoutDTO.source_workout_id w));
         ("activity_type", JStr (WorkoutDTO.activity_type w));
         ("started_at", JStr (WorkoutDTO.started_at w));
         ("ended_at", dump_opt JStr (WorkoutDTO.ended_at w));
         ("duration_sec", dump_opt JFloat (WorkoutDTO.duration_sec w));
         ("active_energy_kcal", dump_opt JFloat (WorkoutDTO.active_energy_kcal w));
         ("distance_m", dump_opt JFloat (WorkoutDTO.distance_m w))].

Definition dump_DailyMetricDTO (m : DailyMetricDTO.t) : json :=
  JDict [("date", JStr (DailyMetricDTO.date m));
         ("metric_type", JStr (DailyMetricType.value (DailyMetricDTO.metric_type m)));
         ("value", JFloat (DailyMetricDTO.value m));
         ("unit", JStr (DailyMetricDTO.unit m))].

Definition model_dump (p : IngestPayload.t) : json :=
  JDict [("schema_version", JInt (IngestPayload.schema_version p));
         ("event_id", JStr (IngestPayload.event_id p));
         ("user_id", JStr (IngestPayload.user_id p));
         ("source", JStr (Source.value (IngestPayload.source p)));
         ("sent_at", JStr (IngestPayload.sent_at p));
         ("device_id", JStr (IngestPayload.device_id p));
         ("workouts", JList (map dump_WorkoutDTO (IngestPayload.workouts p)));
         ("daily_metrics", JList (map dump_DailyMetricDTO (IngestPayload.daily_metrics p)))].

(* ================================================================= *)
(** ** The [ingest_events] table *)

(** A [datetime] in UTC, as microseconds since the epoch. *)
Definition datetime : Set := Z.

Module IngestEvent.
(** One row.  [payload_json] is a [Text] column holding the document that
    [json.dumps] renders; the row keeps the document itself, that is, the
    text up to the [json] module's print and parse. *)
Record t : Type := mk {
  id : string;
  user_id : string;
  source : string;
  schema_version : string;
  event_type : string;
  received_at : datetime;
  payload_json : json
}.
End IngestEvent.

(** A session holds the objects added to it and not yet flushed. *)
Definition session : Type := list IngestEvent.t.

(** What the database raises: a row under a key that is taken, or a text
    that it does not store. *)
Inductive exn : Set :=
| IntegrityError (pk : string)
| DataError (text : string).

(** What reaches the database, for the record of a run. *)
Inductive db_op : Type :=
| op_session
| op_select (pk : string)
| op_insert (row : IngestEvent.t)
| op_commit
| op_rollback
| op_close.

Record world : Type := mkWorld {
  table : list IngestEvent.t;
  clock : datetime;
  trace : list db_op
}.

Definition has_pk (pk : string) (row : IngestEvent.t) : bool :=
  String.eqb pk (IngestEvent.id row).

(** [SELECT ... WHERE id = pk] *)
Definition select (pk : string) (t : list IngestEvent.t) : option IngestEvent.t :=
  find (has_pk pk) t.

(** Rows of the table under one primary key. *)
Definition rows_of (pk : string) (t : list IngestEvent.t) : list IngestEvent.t :=
  filter (has_pk pk) t.

(** [INSERT] of the pending rows under the primary-key constraint: the first
    row whose key is taken fails the whole flush. *)
Fixpoint flush (pending : list IngestEvent.t) (t : list IngestEvent.t)
  : exn + list IngestEvent.t :=
  match pending with
  | [] => inr t
  | row :: rest =>
      match select (IngestEvent.id row) t with
      | Some _ => inl (IntegrityError (IngestEvent.id row))
      | None => flush rest (t ++ [row])
      end
  end.

(* ================================================================= *)
(** ** Programs over the database and the clock *)

(** The calls a request makes outside the process, each with the type of
    what it returns. *)
Inductive event : Type -> Type :=
| EOpen : event session
| EGet (pk : string) : event (exn + option IngestEvent.t)
| ECommit (db : session) : event (option exn)
| EClose : event unit
| ENow : event datetime.

Inductive prog (A : Type) : Type :=
| Ret (a : A)
| Raise (e : exn)
| Vis (X : Type) (e : event X) (k : X -> prog A).

Arguments Ret {A} a.
Arguments Raise {A} e.
Arguments Vis {A X} e k.

Fixpoint bind {A B} (p : prog A) (f : A -> prog B) : prog B :=
  match p with
  | Ret a => f a
  | Raise e => Raise e
  | Vis e k => Vis e (fun x => bind (k x) f)
  end.

Notation "x <- c ;; k" := (bind c (fun x => k))
  (at level 62, c at next level, right associativity).
Notation "c ;; k" := (bind c (fun _ => k))
  (at level 62, right associativity).

(** [try: p finally: q] *)
Fixpoint try_finally {A} (p : prog A) (q : prog unit) : prog A :=
  match p with
  | Ret a => q ;; Ret a
  | Raise e => q ;; Raise e
  | Vis e k => Vis e (fun x => try_finally (k x) q)
  end.

(** [try: p except Exception as e: h e] *)
Fixpoint try_except {A} (p : prog A) (h : exn -> prog A) : prog A :=
  match p with
  | Ret a => Ret a
  | Raise e => h e
  | Vis e k => Vis e (fun x => try_except (k x) h)
  end.

Definition trigger {X} (e : event X) : prog X := Vis e Ret.

(** [SessionLocal()] *)
Definition SessionLocal : prog session := trigger EOpen.

(** [db.get(IngestEvent, pk)] *)
Definition get (db : session) (pk : string) : prog (option IngestEvent.t) :=
  r <- trigger (EGet pk) ;;
  match r with
  | inl e => Raise e
  | inr row => Ret row
  end.

(** [db.add(ev)]: kept in the session until the flush. *)
Definition add (db : session) (ev : IngestEvent.t) : session := db ++ [ev].

(** [db.commit()]: flush, then commit; a failed flush raises. *)
Definition commit (db : session) : prog unit :=
  r <- trigger (ECommit db) ;;
  match r with
  | Some e => Raise e
  | None => Ret tt
  end.

(** [db.close()] *)
Definition close (db : session) : prog unit := trigger EClose.

(** [datetime.now(timezone.utc)] *)
Definition datetime_now : prog datetime := trigger ENow.

(** The world with more calls on its record. *)
Definition logged (ops : list db_op) (w : world) : world :=
  mkWorld (table w) (clock w) (trace w ++ ops).

(** What one call does to the world, in a database that stores any text:
    the one refusal is that of a row under a taken key. *)
Definition handle {X} (e : event X) (w : world) : X * world :=
  match e in event X return X * world with
  | EOpen => ([], logged [op_session] w)
  | EGet pk => (inr (select pk (table w)), logged [op_select pk] w)
  | ECommit db =>
      match flush db (table w) with
      | inl e => (Some e, logged [op_rollback] w)
      | inr t' =>
          (None, mkWorld t' (clock w) (trace w ++ map op_insert db ++ [op_commit]))
      end
  | EClose => (tt, logged [op_close] w)
  | ENow => (clock w, w)
  end.

(** A program run to its end, alone. *)
Fixpoint run {A} (p : prog A) (w : world) : (A + exn) * world :=
  match p with
  | Ret a => (inl a, w)
  | Raise e => (inr e, w)
  | Vis e k => let (x, w') := handle e w in run (k x) w'
  end.

(* ================================================================= *)
(** ** The handlers *)

Definition _insert_event (payload : IngestPayload.t) (event_type : string)
  : prog unit :=
  db <- SessionLocal ;;
  try_finally
    (existing <- get db (IngestPayload.event_id payload) ;;
     match existing with
     | Some _ => Ret tt
     | None =>
         now <- datetime_now ;;
         let ev := IngestEvent.mk
                     (IngestPayload.event_id payload)
                     (IngestPayload.user_id payload)
                     (Source.value (IngestPayload.source payload))
                     (str_of_int (IngestPayload.schema_version payload))
                     event_type
                     now
                     (model_dump payload) in
         let db := add db ev in
         commit db
     end)
    (close db).

Definition len {A} (l : list A) : Z := Z.of_nat (List.length l).

Definition ingest_healthkit (payload : IngestPayload.t) : prog json :=
  if negb (Source.eqb (IngestPayload.source payload) Source.healthkit) then
    Ret (JDict [("status", JStr "error");
                ("message", JStr "source must be healthkit")])
  else
    _insert_event payload "healthkit_bundle" ;;
    Ret (JDict [("status", JStr "ok");
                ("stored_event_id", JStr (IngestPayload.event_id payload));
                ("workouts", JInt (len (IngestPayload.workouts payload)));
                ("metrics", JInt (len (IngestPayload.daily_metrics payload)))]).

(* ================================================================= *)
(** ** The route as the framework serves it *)

Inductive content : Type :=
| JSONResponse (j : json)
| RequestValidationError (es : list error)
| PlainText (s : string).

Record response : Type := mkResponse { status_code : Z; body : content }.

Section Route.

Variable lax_int : json -> option Z.
Variable lax_float : json -> option spec_float.

(** [POST /ingest/healthkit]: the body is validated against [IngestPayload]
    before the handler is called, a body that fails is answered 422 with the
    error lines; what the handler returns is sent with status 200, and an
    exception it lets through is answered 500. *)
Definition post_ingest_healthkit (raw : json) : prog response :=
  match under (Key "body") (validate_IngestPayload lax_int lax_float raw) with
  | Err es => Ret (mkResponse 422 (RequestValidationError es))
  | Ok payload =>
      try_except
        (r <- ingest_healthkit payload ;; Ret (mkResponse 200 (JSONResponse r)))
        (fun _ => Ret (mkResponse 500 (PlainText "Internal Server Error")))
  end.

End Route.

(* ================================================================= *)
(** ** Requests served at the same time *)

(** One call of a request to the outside is one step; a request that has
    returned or raised stays as it is. *)
Definition step {A} (p : prog A) (w : world) : prog A * world :=
  match p with
  | Vis e k => let (x, w') := handle e w in (k x, w')
  | _ => (p, w)
  end.

Fixpoint update {A} (i : nat) (x : A) (l : list A) : list A :=
  match l, i with
  | [], _ => []
  | _ :: l', O => x :: l'
  | y :: l', S i' => y :: update i' x l'
  end.

(** The requests in flight, stepped in the order a schedule names them. *)
Fixpoint exec {A} (sched : list nat) (pool : list (prog A)) (w : world)
  : list (prog A) * world :=
  match sched with
  | [] => (pool, w)
  | i :: sched' =>
      match nth_error pool i with
      | Some p => let (p', w') := step p w in exec sched' (update i p' pool) w'
      | None => exec sched' pool w
      end
  end.

(* ================================================================= *)
(** ** The database of the default [DATABASE_URL] *)

(** PostgreSQL stores no text with a NUL character in it: for a statement
    with such a parameter the driver raises [DataError], and nothing is
    sent. *)
Fixpoint nul_free (s : string) : bool :=
  match s with
  | EmptyString => true
  | String c s' => negb (Ascii.eqb c Ascii.zero) && nul_free s'
  end.

(** The first [String] column of a row that PostgreSQL does not take.  The
    [Text] column of the payload is never one: [json.dumps] writes a NUL of
    the submission as the six characters of its escape. *)
Definition refused_text (row : IngestEvent.t) : option string :=
  find (fun s => negb (nul_free s))
       [IngestEvent.id row; IngestEvent.user_id row; IngestEvent.source row;
        IngestEvent.schema_version row; IngestEvent.event_type row].

(** [INSERT] of the pending rows: a row with a text that is not taken, or
    under a key that is, fails the whole flush. *)
Fixpoint pg_flush (pending : list IngestEvent.t) (t : list IngestEvent.t)
  : exn + list IngestEvent.t :=
  match pending with
  | [] => inr t
  | row :: rest =>
      match refused_text row with
      | Some s => inl (DataError s)
      | None =>
          match select (IngestEvent.id row) t with
          | Some _ => inl (IntegrityError (IngestEvent.id row))
          | None => pg_flush rest (t ++ [row])
          end
      end
  end.

(** What one call does to the world, in PostgreSQL. *)
Definition pg_handle {X} (e : event X) (w : world) : X * world :=
  match e in event X return X * world with
  | EOpen => ([], logged [op_session] w)
  | EGet pk =>
      if nul_free pk
      then (inr (select pk (table w)), logged [op_select pk] w)
      else (inl (DataError pk), w)
  | ECommit db =>
      match pg_flush db (table w) with
      | inl e => (Some e, logged [op_rollback] w)
      | inr t' =>
          (None, mkWorld t' (clock w) (trace w ++ map op_insert db ++ [op_commit]))
      end
  | EClose => (tt, logged [op_close] w)
  | ENow => (clock w, w)
  end.


Section Database.

(** What one call does to the world, in the database at hand. *)
Variable H : forall X, event X -> world -> X * world.

(** A program run to its end, alone. *)
Fixpoint run_in {A} (p : prog A) (w : world) : (A + exn) * world :=
  match p with
  | Ret a => (inl a, w)
  | Raise e => (inr e, w)
  | Vis e k => let (x, w') := H _ e w in run_in (k x) w'
  end.



(** A schedule that serves the requests one after the other. *)
Fixpoint serve_in_turn_in {A} (pool : list (prog A)) (w : world)
  : list (A + exn) * world :=
  match pool with
  | [] => ([], w)
  | p :: pool' =>
      let (r, w') := run_in p w in
      let (rs, w'') := serve_in_turn_in pool' w' in
      (r :: rs, w'')
  end.

End Database.

(* ================================================================= *)
(** ** Vocabulary of the properties *)

(** The primary-key constraint of [ingest_events]. *)
Definition pk_unique (t : list IngestEvent.t) : Prop :=
  NoDup (map IngestEvent.id t).


(** The row [_insert_event] builds. *)
Definition stored_event (payload : IngestPayload.t) (event_type : string)
           (now : datetime) : IngestEvent.t :=
  IngestEvent.mk (IngestPayload.event_id payload)
                 (IngestPayload.user_id payload)
                 (Source.value (IngestPayload.source payload))
                 (str_of_int (IngestPayload.schema_version payload))
                 event_type now (model_dump payload).

Definition ok_response (payload : IngestPayload.t) : response :=
  mkResponse 200
    (JSONResponse
       (JDict [("status", JStr "ok");
               ("stored_event_id", JStr (IngestPayload.event_id payload));
               ("workouts", JInt (len (IngestPayload.workouts payload)));
               ("metrics", JInt (len (IngestPayload.daily_metrics payload)))])).

Definition error_response (message : string) : response :=
  mkResponse 200
    (JSONResponse (JDict [("status", JStr "error"); ("message", JStr message)])).

(** A raw body with a [source], or the [metric_type] of a daily metric,
    outside the enumeration; the second argument is the place. *)
Inductive off_enum : json -> list loc_item -> Prop :=
| off_enum_source d v :
    dict_get "source" d = Some v ->
    ~ In v [JStr "healthkit"; JStr "manual"] ->
    off_enum (JDict d) [Key "source"]
| off_enum_metric_type d l i m v :
    dict_get "daily_metrics" d = Some (JList l) ->
    nth_error l i = Some (JDict m) ->
    dict_get "metric_type" m = Some v ->
    ~ In v [JStr "steps"; JStr "active_energy_kcal"; JStr "sleep_hours";
            JStr "body_weight_lbs"] ->
    off_enum (JDict d) [Key "daily_metrics"; Idx i; Key "metric_type"].

(** A raw body with a key that no model declares, at the top level, in a
    workout or in a daily metric; the second argument is the place. *)
Inductive unknown_field : json -> list loc_item -> Prop :=
| unknown_top d k :
    In k (keys d) ->
    ~ In k IngestPayload.fields ->
    unknown_field (JDict d) [Key k]
| unknown_in_workout d l i m k :
    dict_get "workouts" d = Some (JList l) ->
    nth_error l i = Some (JDict m) ->
    In k (keys m) ->
    ~ In k WorkoutDTO.fields ->
    unknown_field (JDict d) [Key "workouts"; Idx i; Key k]
| unknown_in_metric d l i m k :
    dict_get "daily_metrics" d = Some (JList l) ->
    nth_error l i = Some (JDict m) ->
    In k (keys m) ->
    ~ In k DailyMetricDTO.fields ->
    unknown_field (JDict d) [Key "daily_metrics"; Idx i; Key k].

(** A raw body without some of its keys. *)
Definition omit (ks : list string) (d : list (string * json)) : list (string * json) :=
  filter (fun kv => negb (mem (fst kv) ks)) d.

(** The payload with the models' defaults at the fields named. *)
Definition with_defaults (ks : list string) (p : IngestPayload.t) : IngestPayload.t :=
  IngestPayload.mk
    (if mem "schema_version" ks then 1%Z else IngestPayload.schema_version p)
    (IngestPayload.event_id p)
    (if mem "user_id" ks then "matt" else IngestPayload.user_id p)
    (if mem "source" ks then Source.healthkit else IngestPayload.source p)
    (IngestPayload.sent_at p)
    (IngestPayload.device_id p)
    (IngestPayload.workouts p)
    (IngestPayload.daily_metrics p).

(** A validation result that keeps the request from the store: the body
    failed, or its source is not the route's. *)
Definition turned_away (r : result IngestPayload.t) : Prop :=
  match r with
  | Err _ => True
  | Ok payload => IngestPayload.source payload <> Source.healthkit
  end.

(** What a request has come to. *)
Definition outcome {A} (p : prog A) : option (A + exn) :=
  match p with
  | Ret a => Some (inl a)
  | Raise e => Some (inr e)
  | Vis _ _ => None
  end.

(** [j[k]] on a document that is an object. *)
Definition json_get (k : string) (j : json) : option json :=
  match j with
  | JDict d => dict_get k d
  | _ => None
  end.

(** [int(s)] for a decimal string. *)
Definition int_of_str (s : string) : option Z :=
  option_map Z.of_int (NilZero.int_of_string s).

(* ================================================================= *)
(** ** Sample requests *)

(** 5000.0 *)
Definition f5000 : spec_float := S754_finite false 5497558138880000 (-40).

(** The body of the example scenario. *)
Definition body_e1 : json :=
  JDict [("event_id", JStr "e1"); ("user_id", JStr "matt");
         ("source", JStr "healthkit"); ("sent_at", JStr "2024-01-01T00:00:00Z");
         ("device_id", JStr "d1"); ("workouts", JList []);
         ("daily_metrics",
          JList [JDict [("date", JStr "2024-01-01"); ("metric_type", JStr "steps");
                        ("value", JFloat f5000); ("unit", JStr "count")]])].

Definition payload_e1 : IngestPayload.t :=
  IngestPayload.mk 1 "e1" "matt" Source.healthkit "2024-01-01T00:00:00Z" "d1" []
    [DailyMetricDTO.mk "2024-01-01" DailyMetricType.steps f5000 "count"].

(** The same, entered by hand. *)
Definition payload_manual : IngestPayload.t :=
  IngestPayload.mk 1 "e2" "matt" Source.manual "2024-01-01T00:00:00Z" "d1" []
    [DailyMetricDTO.mk "2024-01-01" DailyMetricType.steps f5000 "count"].

(** 1800.0, 7.5 and 180.5 *)
Definition f1800 : spec_float := S754_finite false 7916483719987200 (-42).
Definition f7_5 : spec_float := S754_finite false 8444249301319680 (-50).
Definition f180_5 : spec_float := S754_finite false 6350779162034176 (-45).

(** A bundle of two workouts and three daily metrics. *)
Definition payload_2_3 : IngestPayload.t :=
  IngestPayload.mk 1 "e3" "matt" Source.healthkit "2024-01-02T07:00:00Z" "d1"
    [WorkoutDTO.mk "w1" "running" "2024-01-01T06:00:00Z"
       (Some "2024-01-01T06:30:00Z") (Some f1800) (Some (S754_zero false)) None;
     WorkoutDTO.mk "w2" "yoga" "2024-01-01T18:00:00Z" None None None None]
    [DailyMetricDTO.mk "2024-01-01" DailyMetricType.steps f5000 "count";
     DailyMetricDTO.mk "2024-01-01" DailyMetricType.sleep_hours f7_5 "h";
     DailyMetricDTO.mk "2024-01-01" DailyMetricType.body_weight_lbs f180_5 "lb"].

(** The example scenario with a metric type that is not enumerated. *)
Definition body_blood_pressure : json :=
  JDict [("event_id", JStr "e4"); ("sent_at", JStr "2024-01-01T00:00:00Z");
         ("device_id", JStr "d1");
         ("daily_metrics",
          JList [JDict [("date", JStr "2024-01-01");
                        ("metric_type", JStr "blood_pressure");
                        ("value", JFloat f5000); ("unit", JStr "mmHg")]])].

(** A workout with a key the model does not declare. *)
Definition body_extra : json :=
  JDict [("event_id", JStr "e5"); ("sent_at", JStr "2024-01-01T00:00:00Z");
         ("device_id", JStr "d1");
         ("workouts",
          JList [JDict [("source_workout_id", JStr "w1");
                        ("activity_type", JStr "running");
                        ("started_at", JStr "2024-01-01T06:00:00Z");
                        ("heart_rate", JInt 150)]])].

(** A body without [event_id]. *)
Definition body_no_event_id : json :=
  JDict [("sent_at", JStr "2024-01-01T00:00:00Z"); ("device_id", JStr "d1")].

(** An empty table at some time. *)
Definition world0 : world := mkWorld [] 1704067200000000%Z [].

(* ================================================================= *)
(** ** The liveness route *)

Section Health.

(** [datetime.isoformat()], the standard library's rendering of a time. *)
Variable isoformat : datetime -> string.

(** [GET /health] *)
Definition health : prog json :=
  now <- datetime_now ;;
  Ret (JDict [("ok", JBool true); ("ts", JStr (isoformat now))]).

(** The route as the framework serves it. *)
Definition get_health : prog response :=
  try_except
    (r <- health ;; Ret (mkResponse 200 (JSONResponse r)))
    (fun _ => Ret (mkResponse 500 (PlainText "Internal Server Error"))).

(** What it answers at a reading of the clock. *)
Definition alive (now : datetime) : response :=
  mkResponse 200
    (JSONResponse (JDict [("ok", JBool true); ("ts", JStr (isoformat now))])).

End Health.

(* ================================================================= *)
(** ** Vocabulary of the further properties *)

(** The table [t'] is [t] with rows added after it. *)
Definition extends (t t' : list IngestEvent.t) : Prop :=
  exists more, t' = t ++ more.


(** Every row that [p] may commit, whatever the world it runs in,
    satisfies [P]. *)
Fixpoint commits_only {A} (P : IngestEvent.t -> Prop) (p : prog A) : Prop :=
  match p with
  | Vis e k =>
      match e with
      | ECommit db => Forall P db
      | _ => True
      end /\ forall w, commits_only P (k (fst (handle e w)))
  | _ => True
  end.

(** No session is open when [p] returns or raises, [opened] telling whether
    one is open when [p] starts. *)
Fixpoint closed_at_end {A} (opened : bool) (p : prog A) : Prop :=
  match p with
  | Vis e k =>
      forall x,
        closed_at_end match e with
                      | EOpen => true
                      | EClose => false
                      | _ => opened
                      end (k x)
  | _ => opened = false
  end.

(** [p] calls nothing but the clock. *)
Fixpoint quiet {A} (p : prog A) : Prop :=
  match p with
  | Vis e k =>
      match e with
      | ENow => True
      | _ => False
      end /\ forall x, quiet (k x)
  | _ => True
  end.

(** A schedule of the requests after the first, the first left out. *)
Definition others (sched : list nat) : list nat :=
  map Nat.pred (filter (fun i => negb (Nat.eqb i 0)) sched).

(** A row as the HealthKit route stores them. *)
Definition healthkit_row (row : IngestEvent.t) : Prop :=
  exists payload now,
    IngestPayload.source payload = Source.healthkit /\
    row = stored_event payload "healthkit_bundle" now.

(** A raw body that lacks a field declared without a default, at the top
    level, in a workout or in a daily metric; the second argument is the
    place. *)
Inductive missing_field : json -> list loc_item -> Prop :=
| missing_top d k :
    In k ["event_id"; "sent_at"; "device_id"] ->
    dict_get k d = None ->
    missing_field (JDict d) [Key k]
| missing_in_workout d l i m k :
    dict_get "workouts" d = Some (JList l) ->
    nth_error l i = Some (JDict m) ->
    In k ["source_workout_id"; "activity_type"; "started_at"] ->
    dict_get k m = None ->
    missing_field (JDict d) [Key "workouts"; Idx i; Key k]
| missing_in_metric d l i m k :
    dict_get "daily_metrics" d = Some (JList l) ->
    nth_error l i = Some (JDict m) ->
    In k ["date"; "metric_type"; "value"; "unit"] ->
    dict_get k m = None ->
    missing_field (JDict d) [Key "daily_metrics"; Idx i; Key k].


(** The example scenario sent again under the same event id with another
    day's metrics. *)
Definition payload_e1_again : IngestPayload.t :=
  IngestPayload.mk 1 "e1" "matt" Source.healthkit "2024-01-02T00:00:00Z" "d1"
    [WorkoutDTO.mk "w1" "running" "2024-01-01T06:00:00Z" None None None None]
    [DailyMetricDTO.mk "2024-01-02" DailyMetricType.steps f5000 "count";
     DailyMetricDTO.mk "2024-01-02" DailyMetricType.sleep_hours f7_5 "h"].

(** The example scenario from a user whose id has a NUL in it. *)
Definition a_nul_b : string :=
  String "a" (String Ascii.zero (String "b" EmptyString)).


Definition body_nul : json :=
  JDict [("event_id", JStr "e7"); ("user_id", JStr a_nul_b);
         ("source", JStr "healthkit"); ("sent_at", JStr "2024-01-01T00:00:00Z");
         ("device_id", JStr "d1"); ("workouts", JList []);
         ("daily_metrics",
          JList [JDict [("date", JStr "2024-01-01"); ("metric_type", JStr "steps");
                        ("value", JFloat f5000); ("unit", JStr "count")]])].


(** A body whose workout lacks [started_at]. *)
Definition body_no_started_at : json :=
  JDict [("event_id", JStr "e6"); ("sent_at", JStr "2024-01-01T00:00:00Z");
         ("device_id", JStr "d1");
         ("workouts",
          JList [JDict [("source_workout_id", JStr "w1");
                        ("activity_type", JStr "running")]])].

(* ================================================================= *)
(** * Properties *)

(** ** The table *)

#[local] Arguments select : simpl never.
#[local] Arguments str_of_int : simpl never.

Lemma has_pk_true pk row : has_pk pk row = true <-> IngestEvent.id row = pk.
Proof.
  unfold has_pk. rewrite String.eqb_eq. split; congruence.
Qed.

Lemma select_some pk t row :
  select pk t = Some row -> In row t /\ IngestEvent.id row = pk.
Proof.
  unfold select. intros H. apply find_some in H.
  destruct H as [Hin Hpk]. now apply has_pk_true in Hpk.
Qed.

Lemma select_none pk t :
  select pk t = None <-> ~ In pk (map IngestEvent.id t).
Proof.
  unfold select. induction t as [|r t IH]; simpl.
  - tauto.
  - destruct (has_pk pk r) eqn:E.
    + apply has_pk_true in E. split; [discriminate | intros H; exfalso; auto].
    + rewrite IH. split.
      * intros H [H1 | H1]; [|tauto].
        apply has_pk_true in H1. congruence.
      * tauto.
Qed.

Lemma select_app pk t t' :
  select pk (t ++ t') =
  match select pk t with Some r => Some r | None => select pk t' end.
Proof.
  unfold select. induction t as [|r t IH]; simpl; [reflexivity|].
  now destruct (has_pk pk r).
Qed.

Lemma rows_of_absent pk t : select pk t = None -> rows_of pk t = [].
Proof.
  unfold select, rows_of. induction t as [|r t IH]; simpl; [reflexivity|].
  destruct (has_pk pk r); [discriminate | exact IH].
Qed.

Lemma rows_of_present pk t row :
  pk_unique t -> select pk t = Some row -> rows_of pk t = [row].
Proof.
  unfold pk_unique, rows_of. induction t as [|r t IH]; simpl; intros Hu Hs.
  - discriminate.
  - inversion Hu as [|? ? Hnotin Hu']; subst.
    unfold select in Hs. simpl in Hs.
    destruct (has_pk pk r) eqn:E.
    + injection Hs as ->. f_equal.
      apply rows_of_absent, select_none.
      apply has_pk_true in E. now rewrite <- E.
    + now apply IH.
Qed.

Lemma pk_unique_snoc t row :
  pk_unique t -> select (IngestEvent.id row) t = None -> pk_unique (t ++ [row]).
Proof.
  unfold pk_unique. intros Hu Hs. apply select_none in Hs.
  rewrite map_app. simpl.
  apply NoDup_rev in Hu. rewrite <- (rev_involutive (_ ++ _)).
  apply NoDup_rev. rewrite rev_app_distr. simpl.
  constructor; [|exact Hu].
  now rewrite <- in_rev.
Qed.

(** A flush never breaks the primary-key constraint. *)
Lemma flush_pk_unique pending : forall t t',
  pk_unique t -> flush pending t = inr t' -> pk_unique t'.
Proof.
  induction pending as [|row rest IH]; simpl; intros t t' Hu H.
  - now injection H as <-.
  - destruct (select (IngestEvent.id row) t) eqn:E; [discriminate|].
    eapply IH; [|exact H]. now apply pk_unique_snoc.
Qed.

Lemma handle_pk_unique X (e : event X) w :
  pk_unique (table w) -> pk_unique (table (snd (handle e w))).
Proof.
  destruct e; simpl; auto.
  destruct (flush db (table w)) eqn:E; simpl; auto.
  intros Hu. eapply flush_pk_unique; eauto.
Qed.

(** ** Running programs *)

Lemma run_bind A B (p : prog A) (f : A -> prog B) : forall w,
  run (bind p f) w =
  match run p w with
  | (inl a, w') => run (f a) w'
  | (inr e, w') => (inr e, w')
  end.
Proof.
  induction p as [a|e|X e k IH]; intros w; simpl; try reflexivity.
  destruct (handle e w) as [x w']. apply IH.
Qed.

Lemma run_step A (p : prog A) w :
  run p w = let (p', w') := step p w in run p' w'.
Proof.
  destruct p; simpl; try reflexivity.
  now destruct (handle e w).
Qed.

Lemma run_pk_unique A (p : prog A) : forall w,
  pk_unique (table w) -> pk_unique (table (snd (run p w))).
Proof.
  induction p as [a|e|X e k IH]; intros w Hu; simpl; auto.
  pose proof (handle_pk_unique _ e w Hu) as Hu'.
  destruct (handle e w) as [x w']. now apply IH.
Qed.

(** What [_insert_event] does, by whether the key is in the table. *)
Lemma run_insert_event_present payload event_type w row :
  select (IngestPayload.event_id payload) (table w) = Some row ->
  run (_insert_event payload event_type) w =
  (inl tt,
   logged [op_session; op_select (IngestPayload.event_id payload); op_close] w).
Proof.
  intros Hs. unfold _insert_event. cbn. rewrite Hs. cbn.
  unfold logged. cbn. now rewrite <- !app_assoc.
Qed.

Lemma run_insert_event_absent payload event_type w :
  select (IngestPayload.event_id payload) (table w) = None ->
  run (_insert_event payload event_type) w =
  (inl tt,
   let row := stored_event payload event_type (clock w) in
   mkWorld (table w ++ [row]) (clock w)
           (trace w ++ [op_session;
                        op_select (IngestPayload.event_id payload);
                        op_insert row; op_commit; op_close])).
Proof.
  intros Hs. unfold _insert_event. cbn. rewrite Hs. cbn. rewrite Hs. cbn.
  unfold stored_event, logged. cbn. now rewrite <- !app_assoc.
Qed.

Lemma run_try_except A (p : prog A) (h : exn -> prog A) : forall w,
  run (try_except p h) w =
  match run p w with
  | (inl a, w') => (inl a, w')
  | (inr e, w') => run (h e) w'
  end.
Proof.
  induction p as [a|e|X e k IH]; intros w; simpl; try reflexivity.
  destruct (handle e w) as [x w']. apply IH.
Qed.

(** Served alone, [_insert_event] returns. *)
Lemma run_insert_event_returns payload event_type w :
  fst (run (_insert_event payload event_type) w) = inl tt.
Proof.
  destruct (select (IngestPayload.event_id payload) (table w)) eqn:E.
  - now rewrite (run_insert_event_present _ _ _ _ E).
  - now rewrite (run_insert_event_absent _ _ _ E).
Qed.

Lemma run_ingest_healthkit payload w :
  IngestPayload.source payload = Source.healthkit ->
  run (ingest_healthkit payload) w =
  (inl (JDict [("status", JStr "ok");
               ("stored_event_id", JStr (IngestPayload.event_id payload));
               ("workouts", JInt (len (IngestPayload.workouts payload)));
               ("metrics", JInt (len (IngestPayload.daily_metrics payload)))]),
   snd (run (_insert_event payload "healthkit_bundle") w)).
Proof.
  intros Hsrc. unfold ingest_healthkit. rewrite Hsrc. simpl negb. cbv iota.
  rewrite run_bind.
  pose proof (run_insert_event_returns payload "healthkit_bundle" w) as Hr.
  destruct (run (_insert_event payload "healthkit_bundle") w) as [r w'].
  simpl in Hr. subst r. reflexivity.
Qed.

Section Contract.

Variable lax_int : json -> option Z.
Variable lax_float : json -> option spec_float.

Hypothesis lax_int_int : forall z, lax_int (JInt z) = Some z.
Hypothesis lax_float_float : forall f, lax_float (JFloat f) = Some f.

Abbreviation validate := (validate_IngestPayload lax_int lax_float).
Abbreviation post := (post_ingest_healthkit lax_int lax_float).

Lemma run_post_accepted raw payload w :
  validate raw = Ok payload ->
  IngestPayload.source payload = Source.healthkit ->
  run (post raw) w =
  (inl (ok_response payload),
   snd (run (_insert_event payload "healthkit_bundle") w)).
Proof.
  intros Hv Hsrc. unfold post_ingest_healthkit. rewrite Hv. cbv beta iota delta [under].
  rewrite run_try_except, run_bind, (run_ingest_healthkit _ _ Hsrc).
  reflexivity.
Qed.

Lemma run_post_mismatch raw payload w :
  validate raw = Ok payload ->
  IngestPayload.source payload <> Source.healthkit ->
  run (post raw) w = (inl (error_response "source must be healthkit"), w).
Proof.
  intros Hv Hsrc. unfold post_ingest_healthkit. rewrite Hv.
  cbv beta iota delta [under]. unfold ingest_healthkit.
  destruct (IngestPayload.source payload); [congruence | reflexivity].
Qed.

(** C4, as amended.  A request whose body validates but names a source other
    than the route's is answered 200 with [{status: "error", message: "source
    must be healthkit"}]; a request whose body fails validation never reaches
    the handler and is answered 422 with the error lines.  Either way the
    world is as it was: nothing is written and the database is not called. *)
Theorem turned_away_request_not_stored raw w :
  turned_away (validate raw) ->
  run (post raw) w =
  (inl match under (Key "body") (validate raw) with
       | Err es => mkResponse 422 (RequestValidationError es)
       | Ok _ => error_response "source must be healthkit"
       end,
   w).
Proof.
  intros H. destruct (validate raw) as [payload|es] eqn:Hv.
  - cbn [under]. now apply (run_post_mismatch raw payload).
  - unfold post_ingest_healthkit. rewrite Hv. reflexivity.
Qed.

(** C5.  A submission whose source is not HealthKit: the handler is a bare
    return of the source-mismatch error, with no call to the database in it,
    and the request is answered with that error in a world left as it was,
    table and record of database calls alike. *)
Theorem source_mismatch_rejected_before_storage raw payload w :
  validate raw = Ok payload ->
  IngestPayload.source payload <> Source.healthkit ->
  ingest_healthkit payload =
    Ret (JDict [("status", JStr "error");
                ("message", JStr "source must be healthkit")]) /\
  run (post raw) w = (inl (error_response "source must be healthkit"), w).
Proof.
  intros Hv Hsrc. split.
  - unfold ingest_healthkit.
    destruct (IngestPayload.source payload); [congruence | reflexivity].
  - now apply (run_post_mismatch raw payload).
Qed.

(** ** What is stored reads back *)

Lemma validate_items_dump A (v : json -> result A) (dump : A -> json) :
  (forall x, v (dump x) = Ok x) ->
  forall l i, validate_items v i (map dump l) = Ok l.
Proof.
  intros Hv. induction l as [|x l IH]; intros i; simpl; [reflexivity|].
  now rewrite Hv, IH.
Qed.

Lemma validate_WorkoutDTO_dump w :
  validate_WorkoutDTO lax_float (dump_WorkoutDTO w) = Ok w.
Proof.
  destruct w as [a b c [e|] [f|] [g|] [h|]]; cbn;
    unfold validate_float; rewrite ?lax_float_float; reflexivity.
Qed.

Lemma validate_DailyMetricDTO_dump m :
  validate_DailyMetricDTO lax_float (dump_DailyMetricDTO m) = Ok m.
Proof.
  destruct m as [d [| | |] v u]; cbn;
    unfold validate_float; rewrite ?lax_float_float; reflexivity.
Qed.

Lemma validate_model_dump payload : validate (model_dump payload) = Ok payload.
Proof.
  destruct payload as [sv eid uid src sent dev ws ms].
  unfold model_dump, validate_IngestPayload. cbn.
  unfold validate_int. rewrite lax_int_int.
  rewrite (validate_items_dump _ _ _ validate_WorkoutDTO_dump).
  rewrite (validate_items_dump _ _ _ validate_DailyMetricDTO_dump).
  destruct src; reflexivity.
Qed.

(** C8.  A validated submission recorded under an event id that the table
    does not hold yet: the table then holds a row under that id, and
    validating the document in its [payload_json] gives back the submission,
    every field of it. *)
Theorem stored_payload_round_trip payload event_type w :
  select (IngestPayload.event_id payload) (table w) = None ->
  exists row,
    select (IngestPayload.event_id payload)
           (table (snd (run (_insert_event payload event_type) w))) = Some row /\
    validate (IngestEvent.payload_json row) = Ok payload.
Proof.
  intros E. exists (stored_event payload event_type (clock w)).
  rewrite (run_insert_event_absent _ _ _ E). cbn [snd table]. split.
  - rewrite select_app, E. unfold select. cbn. unfold has_pk. cbn.
    now rewrite String.eqb_refl.
  - apply validate_model_dump.
Qed.

(** ** The schema version *)

Lemma int_of_str_of_int n : int_of_str (str_of_int n) = Some n.
Proof.
  unfold int_of_str, str_of_int.
  rewrite NilZero.isi.
  - simpl. now rewrite DecimalZ.of_to.
  - destruct n; simpl; try discriminate.
    intros H. injection H as H.
    now apply DecimalPos.Unsigned.to_uint_nonnil in H.
  - destruct n; simpl; try discriminate.
    intros H. injection H as H.
    now apply DecimalPos.Unsigned.to_uint_nonnil in H.
Qed.

(** C10.  The row stored for a submission has, in its [schema_version]
    column, the text [str] makes of the submission's integer, a decimal
    numeral that reads back as that integer (["1"] for 1), while the stored
    document has the integer itself under [schema_version]. *)
Theorem schema_version_stored_as_text payload event_type w :
  select (IngestPayload.event_id payload) (table w) = None ->
  exists row,
    select (IngestPayload.event_id payload)
           (table (snd (run (_insert_event payload event_type) w))) = Some row /\
    IngestEvent.schema_version row
      = str_of_int (IngestPayload.schema_version payload) /\
    int_of_str (IngestEvent.schema_version row)
      = Some (IngestPayload.schema_version payload) /\
    json_get "schema_version" (IngestEvent.payload_json row)
      = Some (JInt (IngestPayload.schema_version payload)) /\
    str_of_int 1 = "1".
Proof.
  intros E. exists (stored_event payload event_type (clock w)).
  rewrite (run_insert_event_absent _ _ _ E). cbn [snd table]. split.
  - rewrite select_app, E. unfold select. cbn. unfold has_pk. cbn.
    now rewrite String.eqb_refl.
  - cbn. repeat split. apply int_of_str_of_int.
Qed.

(** ** Where validation fails *)

Lemma mem_In k ks : mem k ks = true <-> In k ks.
Proof.
  unfold mem. rewrite existsb_exists. split.
  - intros [x [Hin Heq]]. apply String.eqb_eq in Heq. now subst.
  - intros Hin. exists k. split; [assumption | apply String.eqb_refl].
Qed.

Lemma mem_not_In k ks : mem k ks = false <-> ~ In k ks.
Proof.
  rewrite <- mem_In. destruct (mem k ks); split; congruence.
Qed.

Lemma errors_Err A (r : result A) e : In e (errors r) -> r = Err (errors r).
Proof.
  destruct r; simpl; [tauto | reflexivity].
Qed.

Lemma in_errors_ap_l A B (rf : result (A -> B)) ra e :
  In e (errors rf) -> In e (errors (rf <*> ra)).
Proof.
  destruct rf, ra; simpl; try tauto. intros H. apply in_or_app. now left.
Qed.

Lemma in_errors_ap_r A B (rf : result (A -> B)) ra e :
  In e (errors ra) -> In e (errors (rf <*> ra)).
Proof.
  destruct rf, ra; simpl; try tauto. intros H. apply in_or_app. now right.
Qed.

Lemma in_errors_forbid A (r : result A) extras e :
  In e (errors r) -> In e (errors (forbid extras r)).
Proof.
  destruct extras; simpl; auto. intros H. apply in_or_app. now left.
Qed.

Lemma in_errors_forbid_extra A (r : result A) extras k :
  In k extras -> In (mkError [Key k] extra_forbidden) (errors (forbid extras r)).
Proof.
  destruct extras as [|x xs]; [intros []|]. intros H. cbn [forbid errors].
  apply in_or_app. right.
  now apply (in_map (fun k => mkError [Key k] extra_forbidden)) in H.
Qed.

Lemma in_errors_under A (r : result A) i e :
  In e (errors r) -> In (mkError (i :: loc e) (kind e)) (errors (under i r)).
Proof.
  destruct r; simpl; [tauto|].
  apply (in_map (fun e => mkError (i :: loc e) (kind e))).
Qed.

Lemma in_errors_items A (v : json -> result A) x e : forall l i n,
  nth_error l i = Some x ->
  In e (errors (v x)) ->
  In (mkError (Idx (n + i) :: loc e) (kind e)) (errors (validate_items v n l)).
Proof.
  induction l as [|y l IH]; intros [|i] n Hnth He; simpl in Hnth; try discriminate.
  - injection Hnth as ->. rewrite Nat.add_0_r. cbn [validate_items].
    apply in_errors_ap_l, in_errors_ap_r. now apply in_errors_under.
  - cbn [validate_items]. apply in_errors_ap_r.
    rewrite <- Nat.add_succ_comm. now apply IH.
Qed.

Lemma in_errors_field A d name (v : json -> result A) dflt x e :
  dict_get name d = Some x ->
  In e (errors (v x)) ->
  In (mkError (Key name :: loc e) (kind e)) (errors (field d name v dflt)).
Proof.
  intros Hget He. unfold field. rewrite Hget. now apply in_errors_under.
Qed.

Lemma in_errors_list_field A d name (v : json -> result A) dflt l i x e :
  dict_get name d = Some (JList l) ->
  nth_error l i = Some x ->
  In e (errors (v x)) ->
  In (mkError (Key name :: Idx i :: loc e) (kind e))
     (errors (field d name (validate_list v) dflt)).
Proof.
  intros Hget Hnth He.
  apply (in_errors_field _ d name (validate_list v) dflt _
           (mkError (Idx i :: loc e) (kind e)) Hget).
  cbn [validate_list]. now apply (in_errors_items _ v x e l i 0).
Qed.

Lemma in_extra_keys fields d k :
  In k (keys d) -> ~ In k fields -> In k (extra_keys fields d).
Proof.
  intros Hk Hf. unfold extra_keys. apply filter_In. split; [assumption|].
  apply mem_not_In in Hf. now rewrite Hf.
Qed.

Lemma validate_enum_off E (value : E -> string) members v :
  ~ In v (map (fun m => JStr (value m)) members) ->
  validate_enum value members v = fail enum.
Proof.
  intros H. destruct v; try reflexivity. cbn [validate_enum].
  destruct (find _ members) as [m|] eqn:F; [|reflexivity].
  apply find_some in F. destruct F as [Hin Heq].
  apply String.eqb_eq in Heq. subst s.
  exfalso. apply H. now apply (in_map (fun m => JStr (value m))).
Qed.

(** C6.  A raw body whose [source] is not one of the two values of the
    enumeration, or one of whose daily metrics has a [metric_type] outside
    the four of its enumeration, fails validation, with an [enum] error line
    at that field. *)
Theorem closed_enums_enforced raw place :
  off_enum raw place ->
  exists es, validate raw = Err es /\ In (mkError place enum) es.
Proof.
  intros H.
  assert (Hin : In (mkError place enum) (errors (validate raw))).
  { destruct H as [d v Hget Hoff | d l i m v Hget Hnth Hmt Hoff];
      cbn [validate_IngestPayload]; apply in_errors_forbid.
    - do 4 apply in_errors_ap_l. apply in_errors_ap_r.
      apply (in_errors_field _ d "source" validate_Source _ v
               (mkError [] enum) Hget).
      unfold validate_Source. rewrite validate_enum_off by exact Hoff.
      now left.
    - apply in_errors_ap_r.
      apply (in_errors_list_field _ d "daily_metrics"
               (validate_DailyMetricDTO lax_float) _ l i (JDict m)
               (mkError [Key "metric_type"] enum) Hget Hnth).
      cbn [validate_DailyMetricDTO]. apply in_errors_forbid.
      do 2 apply in_errors_ap_l. apply in_errors_ap_r.
      apply (in_errors_field _ m "metric_type" validate_DailyMetricType _ v
               (mkError [] enum) Hmt).
      unfold validate_DailyMetricType. rewrite validate_enum_off by exact Hoff.
      now left. }
  exists (errors (validate raw)). split; [|assumption].
  now apply errors_Err in Hin.
Qed.

(** C7.  A raw body with a key that the models do not declare, at the top
    level, in a workout or in a daily metric, fails validation, with an
    [extra_forbidden] error line at that key: no such body validates, so no
    undeclared key is passed through or dropped. *)
Theorem unknown_fields_rejected raw place :
  unknown_field raw place ->
  exists es, validate raw = Err es /\ In (mkError place extra_forbidden) es.
Proof.
  intros H.
  assert (Hin : In (mkError place extra_forbidden) (errors (validate raw))).
  { destruct H as [d k Hk Hf | d l i m k Hget Hnth Hk Hf
                   | d l i m k Hget Hnth Hk Hf];
      cbn [validate_IngestPayload].
    - apply in_errors_forbid_extra. now apply in_extra_keys.
    - apply in_errors_forbid. apply in_errors_ap_l, in_errors_ap_r.
      apply (in_errors_list_field _ d "workouts"
               (validate_WorkoutDTO lax_float) _ l i (JDict m)
               (mkError [Key k] extra_forbidden) Hget Hnth).
      cbn [validate_WorkoutDTO].
      apply in_errors_forbid_extra. now apply in_extra_keys.
    - apply in_errors_forbid. apply in_errors_ap_r.
      apply (in_errors_list_field _ d "daily_metrics"
               (validate_DailyMetricDTO lax_float) _ l i (JDict m)
               (mkError [Key k] extra_forbidden) Hget Hnth).
      cbn [validate_DailyMetricDTO].
      apply in_errors_forbid_extra. now apply in_extra_keys. }
  exists (errors (validate raw)). split; [|assumption].
  now apply errors_Err in Hin.
Qed.

(** ** Omitted fields *)

Lemma ap_ok_inv A B (rf : result (A -> B)) ra b :
  rf <*> ra = Ok b -> exists f a, rf = Ok f /\ ra = Ok a /\ b = f a.
Proof.
  destruct rf as [f|], ra as [a|]; simpl; try discriminate.
  intros H. injection H as <-. now exists f, a.
Qed.

Lemma forbid_ok_inv A (r : result A) extras a :
  forbid extras r = Ok a -> extras = [] /\ r = Ok a.
Proof.
  destruct extras; simpl; [tauto | discriminate].
Qed.

Lemma dict_get_omit ks k d :
  dict_get k (omit ks d) = if mem k ks then None else dict_get k d.
Proof.
  induction d as [|[k' v] d IH]; simpl.
  - now destruct (mem k ks).
  - destruct (mem k' ks) eqn:M; simpl.
    + rewrite IH. destruct (String.eqb k k') eqn:E; [|reflexivity].
      apply String.eqb_eq in E. subst k'. now rewrite M.
    + rewrite IH. destruct (String.eqb k k') eqn:E; [|reflexivity].
      apply String.eqb_eq in E. subst k'. now rewrite M.
Qed.

Lemma extra_keys_omit fields ks d :
  extra_keys fields d = [] -> extra_keys fields (omit ks d) = [].
Proof.
  unfold extra_keys, keys, omit.
  induction d as [|[k v] d IH]; simpl; [reflexivity|].
  destruct (mem k fields) eqn:M; simpl; [|discriminate].
  intros H. destruct (mem k ks); simpl; [now apply IH|].
  rewrite M. simpl. now apply IH.
Qed.

Lemma field_omit A ks d name (v : json -> result A) dflt :
  field (omit ks d) name v dflt =
  if mem name ks then field [] name v dflt else field d name v dflt.
Proof.
  unfold field. rewrite dict_get_omit. now destruct (mem name ks).
Qed.

(** What a validated body says of each field. *)
Lemma validate_ok_inv d payload :
  validate (JDict d) = Ok payload ->
  extra_keys IngestPayload.fields d = [] /\
  defaulted d "schema_version" (validate_int lax_int) 1%Z
    = Ok (IngestPayload.schema_version payload) /\
  required d "event_id" validate_str = Ok (IngestPayload.event_id payload) /\
  defaulted d "user_id" validate_str "matt"
    = Ok (IngestPayload.user_id payload) /\
  defaulted d "source" validate_Source Source.healthkit
    = Ok (IngestPayload.source payload) /\
  required d "sent_at" validate_str = Ok (IngestPayload.sent_at payload) /\
  required d "device_id" validate_str = Ok (IngestPayload.device_id payload) /\
  defaulted d "workouts" (validate_list (validate_WorkoutDTO lax_float)) []
    = Ok (IngestPayload.workouts payload) /\
  defaulted d "daily_metrics"
            (validate_list (validate_DailyMetricDTO lax_float)) []
    = Ok (IngestPayload.daily_metrics payload).
Proof.
  cbn [validate_IngestPayload]. intros H.
  apply forbid_ok_inv in H. destruct H as [Hx H]. split; [exact Hx|].
  apply ap_ok_inv in H. destruct H as (f8 & a8 & H & H8 & ->).
  apply ap_ok_inv in H. destruct H as (f7 & a7 & H & H7 & ->).
  apply ap_ok_inv in H. destruct H as (f6 & a6 & H & H6 & ->).
  apply ap_ok_inv in H. destruct H as (f5 & a5 & H & H5 & ->).
  apply ap_ok_inv in H. destruct H as (f4 & a4 & H & H4 & ->).
  apply ap_ok_inv in H. destruct H as (f3 & a3 & H & H3 & ->).
  apply ap_ok_inv in H. destruct H as (f2 & a2 & H & H2 & ->).
  apply ap_ok_inv in H. destruct H as (f1 & a1 & H & H1 & ->).
  injection H as <-. cbn.
  repeat split; assumption.
Qed.

(** C9.  A raw body that validates still validates once [user_id], [source]
    or [schema_version] (any of them) are left out, to the same submission
    with ["matt"], [healthkit] and 1 at the fields left out; a body that
    validates without one of those keys carries that default; and the row
    stored for such a submission has its user id, the value of its source,
    the text of its schema version and the dump of the whole of it, the
    defaults among them. *)
Theorem defaults_fill_omitted_fields d payload ks event_type w :
  validate (JDict d) = Ok payload ->
  incl ks ["user_id"; "source"; "schema_version"] ->
  let payload' := with_defaults ks payload in
  validate (JDict (omit ks d)) = Ok payload' /\
  (In "user_id" ks -> IngestPayload.user_id payload' = "matt") /\
  (In "source" ks -> IngestPayload.source payload' = Source.healthkit) /\
  (In "schema_version" ks -> IngestPayload.schema_version payload' = 1%Z) /\
  (dict_get "user_id" d = None -> IngestPayload.user_id payload = "matt") /\
  (dict_get "source" d = None ->
   IngestPayload.source payload = Source.healthkit) /\
  (dict_get "schema_version" d = None ->
   IngestPayload.schema_version payload = 1%Z) /\
  (select (IngestPayload.event_id payload') (table w) = None ->
   exists row,
     select (IngestPayload.event_id payload')
            (table (snd (run (_insert_event payload' event_type) w)))
       = Some row /\
     IngestEvent.user_id row = IngestPayload.user_id payload' /\
     IngestEvent.source row = Source.value (IngestPayload.source payload') /\
     IngestEvent.schema_version row
       = str_of_int (IngestPayload.schema_version payload') /\
     IngestEvent.payload_json row = model_dump payload').
Proof.
  intros Hv Hks payload'.
  pose proof (validate_ok_inv _ _ Hv)
    as (Hx & Hsv & Heid & Huid & Hsrc & Hsent & Hdev & Hws & Hms).
  assert (Hreq : forall k,
             ~ In k ["user_id"; "source"; "schema_version"] -> mem k ks = false).
  { intros k Hk. apply mem_not_In. intros Hin. apply Hk. now apply Hks. }
  assert (Hne : forall k, In k ["event_id"; "sent_at"; "device_id"; "workouts";
                                "daily_metrics"] -> mem k ks = false).
  { intros k Hk. apply Hreq. intros Hin.
    repeat (destruct Hk as [<- | Hk];
            [repeat (destruct Hin as [Hin | Hin]; [discriminate|]);
             destruct Hin|]).
    destruct Hk. }
  repeat split.
  - cbn [validate_IngestPayload].
    rewrite (extra_keys_omit _ ks _ Hx). cbn [forbid].
    unfold defaulted, required in *. rewrite !field_omit.
    rewrite (Hne "event_id"), (Hne "sent_at"), (Hne "device_id"),
      (Hne "workouts"), (Hne "daily_metrics") by (cbn; tauto).
    rewrite Hsv, Heid, Huid, Hsrc, Hsent, Hdev, Hws, Hms.
    unfold payload', with_defaults.
    destruct (mem "schema_version" ks), (mem "user_id" ks), (mem "source" ks);
      reflexivity.
  - intros Hin. apply mem_In in Hin. unfold payload'. cbn. now rewrite Hin.
  - intros Hin. apply mem_In in Hin. unfold payload'. cbn. now rewrite Hin.
  - intros Hin. apply mem_In in Hin. unfold payload'. cbn. now rewrite Hin.
  - intros Hget. unfold defaulted, field in Huid. rewrite Hget in Huid.
    now injection Huid.
  - intros Hget. unfold defaulted, field in Hsrc. rewrite Hget in Hsrc.
    now injection Hsrc.
  - intros Hget. unfold defaulted, field in Hsv. rewrite Hget in Hsv.
    now injection Hsv.
  - intros E. exists (stored_event payload' event_type (clock w)).
    rewrite (run_insert_event_absent _ _ _ E). cbn [snd table]. split.
    + rewrite select_app, E. unfold select. cbn. unfold has_pk. cbn.
      now rewrite String.eqb_refl.
    + now repeat split.
Qed.

End Contract.

(* ================================================================= *)
(** ** Requests in flight together *)

Lemma step_pk_unique A (p : prog A) w :
  pk_unique (table w) -> pk_unique (table (snd (step p w))).
Proof.
  intros Hu. destruct p as [a|e|X e k]; simpl; auto.
  pose proof (handle_pk_unique _ e w Hu) as Hu'.
  now destruct (handle e w).
Qed.

(** Whatever the programs and the schedule, the table keeps one row per
    key: the primary key is what settles a race. *)
Lemma exec_pk_unique A (sched : list nat) : forall (pool : list (prog A)) w,
  pk_unique (table w) -> pk_unique (table (snd (exec sched pool w))).
Proof.
  induction sched as [|i sched IH]; intros pool w Hu; simpl; auto.
  destruct (nth_error pool i) as [p|]; [|now apply IH].
  pose proof (step_pk_unique _ p w Hu) as Hu'.
  destruct (step p w) as [p' w']. now apply IH.
Qed.

(** C3.  Two requests with the same body, on a table without their event id,
    the second reading the table before the first has committed: the table
    ends with the one row of the first, the first is answered with success,
    and the second, whose insert the primary key refuses, is answered 500:
    [_insert_event] has no handler for the [IntegrityError] that its commit
    raises. *)
Theorem racing_duplicate_is_answered_500 lax_int lax_float raw payload w :
  validate_IngestPayload lax_int lax_float raw = Ok payload ->
  IngestPayload.source payload = Source.healthkit ->
  select (IngestPayload.event_id payload) (table w) = None ->
  let request := post_ingest_healthkit lax_int lax_float raw in
  let after := exec [0; 1; 0; 1; 0; 0; 0; 1; 1; 1]%nat [request; request] w in
  map outcome (fst after) =
    [Some (inl (ok_response payload));
     Some (inl (mkResponse 500 (PlainText "Internal Server Error")))] /\
  table (snd after) =
    table w ++ [stored_event payload "healthkit_bundle" (clock w)].
Proof.
  intros Hv Hsrc E. cbv zeta.
  unfold post_ingest_healthkit. rewrite Hv. cbv beta iota delta [under].
  unfold ingest_healthkit. rewrite Hsrc. cbn. rewrite !E. cbn. rewrite E. cbn.
  rewrite !select_app, !E. unfold select, has_pk. cbn.
  rewrite !String.eqb_refl. cbn. split; reflexivity.
Qed.

(* ================================================================= *)
(** ** The properties on the sample requests *)

Lemma exact_int_int z : exact_int (JInt z) = Some z.
Proof. reflexivity. Qed.

Lemma exact_float_float f : exact_float (JFloat f) = Some f.
Proof. reflexivity. Qed.

(** Two requests carrying the example scenario, the second selecting before
    the first commits. *)
Lemma racing_duplicate_is_answered_500_e1 :
  let request := post_ingest_healthkit exact_int exact_float body_e1 in
  let after := exec [0; 1; 0; 1; 0; 0; 0; 1; 1; 1]%nat [request; request] world0 in
  map outcome (fst after) =
    [Some (inl (ok_response payload_e1));
     Some (inl (mkResponse 500 (PlainText "Internal Server Error")))] /\
  table (snd after) = [stored_event payload_e1 "healthkit_bundle" (clock world0)].
Proof.
  apply (racing_duplicate_is_answered_500 exact_int exact_float body_e1
           payload_e1 world0); reflexivity.
Defined.

(** A body without [event_id] is answered 422, not 200 with an error
    status. *)
Lemma invalid_body_is_answered_422 :
  is_ok (validate_IngestPayload exact_int exact_float body_no_event_id) = false /\
  run (post_ingest_healthkit exact_int exact_float body_no_event_id) world0 =
    (inl (mkResponse 422
            (RequestValidationError
               [mkError [Key "body"; Key "event_id"] missing])),
     world0) /\
  ~ (exists message,
        fst (run (post_ingest_healthkit exact_int exact_float body_no_event_id)
                 world0)
        = inl (error_response message)).
Proof.
  split; [reflexivity|]. split; [reflexivity|].
  intros [message H]. cbn in H. discriminate H.
Qed.

Lemma turned_away_request_not_stored_no_event_id :
  turned_away (validate_IngestPayload exact_int exact_float body_no_event_id) /\
  run (post_ingest_healthkit exact_int exact_float body_no_event_id) world0 =
    (inl (mkResponse 422
            (RequestValidationError
               [mkError [Key "body"; Key "event_id"] missing])),
     world0).
Proof.
  split; [exact I|].
  apply (turned_away_request_not_stored exact_int exact_float
           body_no_event_id world0).
  exact I.
Defined.

(** A bundle entered by hand, posted to the HealthKit route. *)
Lemma source_mismatch_rejected_manual :
  validate_IngestPayload exact_int exact_float (model_dump payload_manual)
    = Ok payload_manual /\
  IngestPayload.source payload_manual <> Source.healthkit /\
  ingest_healthkit payload_manual =
    Ret (JDict [("status", JStr "error");
                ("message", JStr "source must be healthkit")]) /\
  run (post_ingest_healthkit exact_int exact_float (model_dump payload_manual))
      world0
    = (inl (error_response "source must be healthkit"), world0).
Proof.
  split; [reflexivity|]. split; [discriminate|].
  apply (source_mismatch_rejected_before_storage exact_int exact_float
           (model_dump payload_manual) payload_manual world0);
    [reflexivity | discriminate].
Defined.

Lemma off_enum_blood_pressure :
  off_enum body_blood_pressure [Key "daily_metrics"; Idx 0; Key "metric_type"].
Proof.
  eapply off_enum_metric_type; try reflexivity.
  cbn. intros H. repeat (destruct H as [H | H]; [discriminate H|]). exact H.
Defined.

Lemma closed_enums_enforced_blood_pressure :
  exists es,
    validate_IngestPayload exact_int exact_float body_blood_pressure = Err es /\
    In (mkError [Key "daily_metrics"; Idx 0; Key "metric_type"] enum) es.
Proof.
  apply (closed_enums_enforced exact_int exact_float body_blood_pressure
           [Key "daily_metrics"; Idx 0; Key "metric_type"]
           off_enum_blood_pressure).
Defined.

Lemma unknown_field_heart_rate :
  unknown_field body_extra [Key "workouts"; Idx 0; Key "heart_rate"].
Proof.
  eapply unknown_in_workout; try reflexivity.
  - cbn. tauto.
  - cbn. intros H. repeat (destruct H as [H | H]; [discriminate H|]). exact H.
Defined.

Lemma unknown_fields_rejected_heart_rate :
  exists es,
    validate_IngestPayload exact_int exact_float body_extra = Err es /\
    In (mkError [Key "workouts"; Idx 0; Key "heart_rate"] extra_forbidden) es.
Proof.
  apply (unknown_fields_rejected exact_int exact_float body_extra
           [Key "workouts"; Idx 0; Key "heart_rate"] unknown_field_heart_rate).
Defined.

(** The bundle of two workouts and three daily metrics, stored and read
    back. *)
Lemma stored_payload_round_trip_2_3 :
  select "e3" (table world0) = None /\
  exists row,
    select "e3" (table (snd (run (_insert_event payload_2_3 "healthkit_bundle")
                                 world0))) = Some row /\
    validate_IngestPayload exact_int exact_float (IngestEvent.payload_json row)
      = Ok payload_2_3.
Proof.
  split; [reflexivity|].
  apply (stored_payload_round_trip exact_int exact_float exact_int_int
           exact_float_float payload_2_3 "healthkit_bundle" world0).
  reflexivity.
Defined.

(** The example scenario without [user_id], [source] and [schema_version]. *)
Lemma defaults_fill_omitted_fields_e1 :
  let d := [("event_id", JStr "e1"); ("user_id", JStr "anna");
            ("schema_version", JInt 2); ("source", JStr "manual");
            ("sent_at", JStr "2024-01-01T00:00:00Z"); ("device_id", JStr "d1")] in
  let ks := ["user_id"; "source"; "schema_version"] in
  let given := IngestPayload.mk 2 "e1" "anna" Source.manual
                 "2024-01-01T00:00:00Z" "d1" [] [] in
  let filled := IngestPayload.mk 1 "e1" "matt" Source.healthkit
                  "2024-01-01T00:00:00Z" "d1" [] [] in
  validate_IngestPayload exact_int exact_float (JDict d) = Ok given /\
  omit ks d = [("event_id", JStr "e1"); ("sent_at", JStr "2024-01-01T00:00:00Z");
               ("device_id", JStr "d1")] /\
  validate_IngestPayload exact_int exact_float (JDict (omit ks d)) = Ok filled /\
  exists row,
    select "e1" (table (snd (run (_insert_event filled "healthkit_bundle")
                                 world0))) = Some row /\
    IngestEvent.user_id row = "matt" /\
    IngestEvent.source row = "healthkit" /\
    IngestEvent.schema_version row = "1" /\
    IngestEvent.payload_json row = model_dump filled.
Proof.
  cbv zeta. split; [reflexivity|]. split; [reflexivity|].
  pose proof (defaults_fill_omitted_fields exact_int exact_float
                [("event_id", JStr "e1"); ("user_id", JStr "anna");
                 ("schema_version", JInt 2); ("source", JStr "manual");
                 ("sent_at", JStr "2024-01-01T00:00:00Z");
                 ("device_id", JStr "d1")]
                (IngestPayload.mk 2 "e1" "anna" Source.manual
                   "2024-01-01T00:00:00Z" "d1" [] [])
                ["user_id"; "source"; "schema_version"]
                "healthkit_bundle" world0 eq_refl (incl_refl _)) as H.
  cbv zeta in H. destruct H as (Hv & _ & _ & _ & _ & _ & _ & Hrow).
  split; [exact Hv|]. exact (Hrow eq_refl).
Defined.

(** The example scenario: version 1 is stored as the text ["1"]. *)
Lemma schema_version_stored_as_text_e1 :
  select "e1" (table world0) = None /\
  exists row,
    select "e1" (table (snd (run (_insert_event payload_e1 "healthkit_bundle")
                                 world0))) = Some row /\
    IngestEvent.schema_version row = "1" /\
    int_of_str (IngestEvent.schema_version row) = Some 1%Z /\
    json_get "schema_version" (IngestEvent.payload_json row) = Some (JInt 1) /\
    str_of_int 1 = "1".
Proof.
  split; [reflexivity|].
  apply (schema_version_stored_as_text payload_e1 "healthkit_bundle" world0).
  reflexivity.
Defined.

(* ================================================================= *)
(** * Further properties of the models *)

Section Models.

Variable lax_int : json -> option Z.
Variable lax_float : json -> option spec_float.

Abbreviation validate' := (validate_IngestPayload lax_int lax_float).

Lemma in_errors_required A d name (v : json -> result A) :
  dict_get name d = None ->
  In (mkError [Key name] missing) (errors (required d name v)).
Proof.
  intros H. unfold required, field. rewrite H. now left.
Qed.

(** A body that lacks a field declared without a default ([event_id],
    [sent_at], [device_id]; a workout's [source_workout_id], [activity_type],
    [started_at]; a daily metric's [date], [metric_type], [value], [unit])
    fails validation, with a [missing] error line at that field. *)
Theorem missing_required_fields_rejected raw place :
  missing_field raw place ->
  exists es, validate' raw = Err es /\ In (mkError place missing) es.
Proof.
  intros H.
  assert (Hin : In (mkError place missing) (errors (validate' raw))).
  { destruct H as [d k Hk Hget | d l i m k Hl Hnth Hk Hget
                   | d l i m k Hl Hnth Hk Hget];
      cbn [validate_IngestPayload]; apply in_errors_forbid.
    - cbn in Hk. destruct Hk as [<- | [<- | [<- | []]]].
      + do 6 apply in_errors_ap_l. apply in_errors_ap_r.
        now apply in_errors_required.
      + do 3 apply in_errors_ap_l. apply in_errors_ap_r.
        now apply in_errors_required.
      + do 2 apply in_errors_ap_l. apply in_errors_ap_r.
        now apply in_errors_required.
    - apply in_errors_ap_l, in_errors_ap_r.
      apply (in_errors_list_field _ d "workouts"
               (validate_WorkoutDTO lax_float) _ l i (JDict m)
               (mkError [Key k] missing) Hl Hnth).
      cbn [validate_WorkoutDTO]. apply in_errors_forbid.
      cbn in Hk. destruct Hk as [<- | [<- | [<- | []]]].
      + do 6 apply in_errors_ap_l. apply in_errors_ap_r.
        now apply in_errors_required.
      + do 5 apply in_errors_ap_l. apply in_errors_ap_r.
        now apply in_errors_required.
      + do 4 apply in_errors_ap_l. apply in_errors_ap_r.
        now apply in_errors_required.
    - apply in_errors_ap_r.
      apply (in_errors_list_field _ d "daily_metrics"
               (validate_DailyMetricDTO lax_float) _ l i (JDict m)
               (mkError [Key k] missing) Hl Hnth).
      cbn [validate_DailyMetricDTO]. apply in_errors_forbid.
      cbn in Hk. destruct Hk as [<- | [<- | [<- | [<- | []]]]].
      + do 3 apply in_errors_ap_l. apply in_errors_ap_r.
        now apply in_errors_required.
      + do 2 apply in_errors_ap_l. apply in_errors_ap_r.
        now apply in_errors_required.
      + apply in_errors_ap_l, in_errors_ap_r.
        now apply in_errors_required.
      + apply in_errors_ap_r. now apply in_errors_required. }
  exists (errors (validate' raw)). split; [|assumption].
  now apply errors_Err in Hin.
Qed.






Lemma optional_absent_or_null A d name (v : json -> result A) o :
  defaulted d name (optional v) None = Ok o ->
  dict_get name d = None \/ dict_get name d = Some JNull ->
  o = None.
Proof.
  unfold defaulted, field. intros H [E | E]; rewrite E in H.
  - now injection H.
  - cbn in H. now injection H.
Qed.

(** A workout that validates with [ended_at], [duration_sec],
    [active_energy_kcal] or [distance_m] left out or [null] has no value at
    that field, and its dump has [null] there: an absent measure is not
    turned into a number. *)
Theorem optional_workout_fields_stay_null m w k :
  validate_WorkoutDTO lax_float (JDict m) = Ok w ->
  In k ["ended_at"; "duration_sec"; "active_energy_kcal"; "distance_m"] ->
  dict_get k m = None \/ dict_get k m = Some JNull ->
  json_get k (dump_WorkoutDTO w) = Some JNull.
Proof.
  cbn [validate_WorkoutDTO]. intros H Hk Hget.
  apply forbid_ok_inv in H. destruct H as [_ H].
  apply ap_ok_inv in H. destruct H as (f7 & a7 & H & H7 & ->).
  apply ap_ok_inv in H. destruct H as (f6 & a6 & H & H6 & ->).
  apply ap_ok_inv in H. destruct H as (f5 & a5 & H & H5 & ->).
  apply ap_ok_inv in H. destruct H as (f4 & a4 & H & H4 & ->).
  apply ap_ok_inv in H. destruct H as (f3 & a3 & H & H3 & ->).
  apply ap_ok_inv in H. destruct H as (f2 & a2 & H & H2 & ->).
  apply ap_ok_inv in H. destruct H as (f1 & a1 & H & H1 & ->).
  injection H as <-.
  cbn in Hk. destruct Hk as [<- | [<- | [<- | [<- | []]]]].
  - now rewrite (optional_absent_or_null _ _ _ _ _ H4 Hget).
  - now rewrite (optional_absent_or_null _ _ _ _ _ H5 Hget).
  - now rewrite (optional_absent_or_null _ _ _ _ _ H6 Hget).
  - now rewrite (optional_absent_or_null _ _ _ _ _ H7 Hget).
Qed.

End Models.

(* ================================================================= *)
(** * Further properties of the handlers *)

Lemma extends_refl t : extends t t.
Proof.
  exists []. now rewrite app_nil_r.
Qed.

Lemma extends_trans t1 t2 t3 : extends t1 t2 -> extends t2 t3 -> extends t1 t3.
Proof.
  intros [m1 ->] [m2 ->]. exists (m1 ++ m2). now rewrite app_assoc.
Qed.

Lemma select_extends pk t t' row :
  extends t t' -> select pk t = Some row -> select pk t' = Some row.
Proof.
  intros [more ->] H. now rewrite select_app, H.
Qed.

Lemma flush_extends pending : forall t t',
  flush pending t = inr t' -> extends t t'.
Proof.
  induction pending as [|row rest IH]; simpl; intros t t' H.
  - injection H as <-. apply extends_refl.
  - destruct (select (IngestEvent.id row) t); [discriminate|].
    apply IH in H. apply (extends_trans t (t ++ [row]) t'); [|exact H].
    now exists [row].
Qed.

Lemma handle_extends X (e : event X) w :
  extends (table w) (table (snd (handle e w))).
Proof.
  destruct e; simpl; try apply extends_refl.
  destruct (flush db (table w)) eqn:E; simpl; [apply extends_refl|].
  now apply (flush_extends db).
Qed.

Lemma handle_clock X (e : event X) w : clock (snd (handle e w)) = clock w.
Proof.
  destruct e; simpl; try reflexivity.
  now destruct (flush db (table w)).
Qed.

Lemma step_extends A (p : prog A) w :
  extends (table w) (table (snd (step p w))).
Proof.
  destruct p as [a|e|X e k]; simpl; try apply extends_refl.
  pose proof (handle_extends _ e w) as H.
  now destruct (handle e w).
Qed.

Lemma step_clock A (p : prog A) w : clock (snd (step p w)) = clock w.
Proof.
  destruct p as [a|e|X e k]; simpl; try reflexivity.
  pose proof (handle_clock _ e w) as H.
  now destruct (handle e w).
Qed.

Lemma exec_extends A (sched : list nat) : forall (pool : list (prog A)) w,
  extends (table w) (table (snd (exec sched pool w))).
Proof.
  induction sched as [|i sched IH]; intros pool w; simpl.
  - apply extends_refl.
  - destruct (nth_error pool i) as [p|]; [|apply IH].
    pose proof (step_extends _ p w) as H.
    destruct (step p w) as [p' w']. simpl in H.
    exact (extends_trans _ _ _ H (IH _ _)).
Qed.

Lemma exec_clock A (sched : list nat) : forall (pool : list (prog A)) w,
  clock (snd (exec sched pool w)) = clock w.
Proof.
  induction sched as [|i sched IH]; intros pool w; simpl; [reflexivity|].
  destruct (nth_error pool i) as [p|]; [|apply IH].
  pose proof (step_clock _ p w) as H.
  destruct (step p w) as [p' w']. simpl in H. now rewrite IH.
Qed.

Lemma pk_unique_rows_of pk t :
  pk_unique t -> (List.length (rows_of pk t) <= 1)%nat.
Proof.
  intros Hu. destruct (select pk t) as [row|] eqn:E.
  - rewrite (rows_of_present _ _ _ Hu E). simpl. lia.
  - rewrite (rows_of_absent _ _ E). simpl. lia.
Qed.

(** Requests of any kind served together in any order only add rows after
    those of the table: a row that a select finds is found, the same, by
    every later select. *)
Theorem table_is_append_only A (sched : list nat) (pool : list (prog A)) w :
  let after := exec sched pool w in
  extends (table w) (table (snd after)) /\
  forall pk row,
    select pk (table w) = Some row -> select pk (table (snd after)) = Some row.
Proof.
  cbv zeta. split; [apply exec_extends|].
  intros pk row. apply select_extends, exec_extends.
Qed.

(** On a table that respects its primary key, requests of any kind served
    together in any order leave a table that respects it: at most one row
    under any id. *)
Theorem primary_key_kept_by_any_schedule A (sched : list nat)
        (pool : list (prog A)) w :
  pk_unique (table w) ->
  let after := exec sched pool w in
  pk_unique (table (snd after)) /\
  forall pk, (List.length (rows_of pk (table (snd after))) <= 1)%nat.
Proof.
  intros Hu. cbv zeta.
  pose proof (exec_pk_unique _ sched pool w Hu) as Hu'.
  split; [exact Hu'|]. intros pk. now apply pk_unique_rows_of.
Qed.

Section Handlers.

Variable lax_int : json -> option Z.
Variable lax_float : json -> option spec_float.

Abbreviation validate'' := (validate_IngestPayload lax_int lax_float).
Abbreviation post' := (post_ingest_healthkit lax_int lax_float).

(** Whatever the database answers, the session that [_insert_event] opens is
    closed when it returns or raises, a refused commit included, and so for
    the route as a whole; a request turned away before the handler opens
    none. *)
Theorem session_closed_on_every_path payload event_type raw :
  closed_at_end false (_insert_event payload event_type) /\
  closed_at_end false (post' raw).
Proof.
  assert (H : forall p et, closed_at_end false (_insert_event p et)).
  { intros p et. cbn. intros db [e|[row|]]; cbn.
    - intros _. reflexivity.
    - intros _. reflexivity.
    - intros now [e|]; cbn; intros _; reflexivity. }
  split; [apply H|].
  unfold post_ingest_healthkit.
  destruct (validate'' raw) as [p|es]; cbn [under]; [|reflexivity].
  unfold ingest_healthkit.
  destruct (IngestPayload.source p); cbn; [|reflexivity].
  intros db [e|[row|]]; cbn.
  - intros _. reflexivity.
  - intros _. reflexivity.
  - intros now [e|]; cbn; intros _; reflexivity.
Qed.

(** A HealthKit submission posted under an event id that already has a row
    is answered with success and the counts of this submission, and the
    table is left as it was: the row, with the payload first stored under
    that id, is the one a select still finds. *)
Theorem first_submission_wins raw payload w row :
  validate'' raw = Ok payload ->
  IngestPayload.source payload = Source.healthkit ->
  select (IngestPayload.event_id payload) (table w) = Some row ->
  fst (run (post' raw) w) = inl (ok_response payload) /\
  table (snd (run (post' raw) w)) = table w /\
  select (IngestPayload.event_id payload) (table (snd (run (post' raw) w)))
    = Some row.
Proof.
  intros Hv Hsrc E.
  rewrite (run_post_accepted _ _ _ _ w Hv Hsrc).
  rewrite (run_insert_event_present _ _ _ _ E). cbn.
  now repeat split.
Qed.

End Handlers.

(* ================================================================= *)
(** * Further properties of requests in flight together *)



Lemma Forall_update A (P : A -> Prop) x : forall l i,
  P x -> Forall P l -> Forall P (update i x l).
Proof.
  induction l as [|z l IH]; intros [|i] Hx Hl; simpl; auto;
    inversion Hl; subst; constructor; auto.
Qed.

Lemma commits_only_step A (P : IngestEvent.t -> Prop) (p : prog A) w :
  commits_only P p -> Forall P (table w) ->
  commits_only P (fst (step p w)) /\ Forall P (table (snd (step p w))).
Proof.
  intros Hp Ht. destruct p as [a|e|X e k]; simpl; auto.
  simpl in Hp. destruct Hp as [He Hk].
  assert (Forall P (table (snd (handle e w)))) as Ht'.
  { destruct e; simpl; auto.
    destruct (flush db (table w)) as [err|t'] eqn:E; simpl; auto.
    clear Hk. revert He Ht E. generalize (table w).
    induction db as [|row rest IH]; simpl; intros t He Ht E.
    - now injection E as <-.
    - destruct (select (IngestEvent.id row) t); [discriminate|].
      inversion He; subst. apply (IH (t ++ [row])); auto.
      apply Forall_app. split; auto. }
  specialize (Hk w).
  destruct (handle e w) as [x w']. simpl in *. split; [exact Hk | exact Ht'].
Qed.

Lemma exec_commits_only A (P : IngestEvent.t -> Prop) (sched : list nat) :
  forall (pool : list (prog A)) w,
  Forall (commits_only P) pool -> Forall P (table w) ->
  Forall P (table (snd (exec sched pool w))).
Proof.
  induction sched as [|j sched IH]; intros pool w Hpool Ht; simpl; auto.
  destruct (nth_error pool j) as [q|] eqn:Hj; [|now apply IH].
  assert (Hq : commits_only P q).
  { rewrite Forall_forall in Hpool. apply Hpool. now apply nth_error_In in Hj. }
  pose proof (commits_only_step _ P q w Hq Ht) as [Hq' Ht'].
  destruct (step q w) as [q' w']. simpl in *.
  apply IH; [|exact Ht']. now apply Forall_update.
Qed.

Section Together.

Variable lax_int : json -> option Z.
Variable lax_float : json -> option spec_float.

Abbreviation validate3 := (validate_IngestPayload lax_int lax_float).
Abbreviation post3 := (post_ingest_healthkit lax_int lax_float).

Lemma post_commits_only raw : commits_only healthkit_row (post3 raw).
Proof.
  unfold post_ingest_healthkit.
  destruct (validate3 raw) as [payload|es]; cbn [under]; [|exact I].
  unfold ingest_healthkit.
  destruct (IngestPayload.source payload) eqn:Hsrc; cbn; [|exact I].
  split; [exact I|]. intros w1. split; [exact I|]. intros w2.
  destruct (select (IngestPayload.event_id payload) (table w2)); cbn.
  - split; [exact I|]. intros _. exact I.
  - split; [exact I|]. intros w3. split.
    + repeat constructor. exists payload, (clock w3). split; [exact Hsrc|].
      unfold stored_event. now rewrite Hsrc.
    + intros w4. cbn.
      destruct (select (IngestPayload.event_id payload) (table w4)); cbn;
        (split; [exact I|]); intros _; exact I.
Qed.

(** Requests to the route, whatever their bodies, served together in any
    order on a table of rows stored by the route: every row of the table
    they leave is the row of a validated HealthKit submission, with source
    ["healthkit"], event type ["healthkit_bundle"], the submission's event
    id as its id and the submission's dump as its payload.  A submission
    entered by hand is in no row. *)
Theorem stored_rows_are_healthkit_submissions raws sched w :
  Forall healthkit_row (table w) ->
  forall row,
    In row (table (snd (exec sched (map post3 raws) w))) ->
    exists payload,
      IngestPayload.source payload = Source.healthkit /\
      IngestEvent.id row = IngestPayload.event_id payload /\
      IngestEvent.source row = "healthkit" /\
      IngestEvent.event_type row = "healthkit_bundle" /\
      IngestEvent.payload_json row = model_dump payload.
Proof.
  intros Ht row Hin.
  assert (Hpool : Forall (commits_only healthkit_row) (map post3 raws)).
  { apply Forall_forall. intros p Hp. apply in_map_iff in Hp.
    destruct Hp as [raw [<- _]]. apply post_commits_only. }
  pose proof (exec_commits_only _ healthkit_row sched _ w Hpool Ht) as H.
  rewrite Forall_forall in H. destruct (H row Hin) as (payload & now & Hsrc & ->).
  exists payload. cbn. rewrite Hsrc. now repeat split.
Qed.

End Together.

(* ================================================================= *)
(** * The liveness route among the others *)

Lemma step_quiet A (p : prog A) w :
  quiet p -> snd (step p w) = w /\ quiet (fst (step p w)).
Proof.
  destruct p as [a|e|X e k]; simpl; auto.
  intros [He Hk]. destruct e; try contradiction. simpl. split; [reflexivity|].
  apply Hk.
Qed.

Lemma exec_quiet_head A (sched : list nat) : forall (h : prog A) pool w,
  quiet h ->
  tl (fst (exec sched (h :: pool) w)) = fst (exec (others sched) pool w) /\
  snd (exec sched (h :: pool) w) = snd (exec (others sched) pool w).
Proof.
  induction sched as [|[|j] sched IH]; intros h pool w Hq.
  - now split.
  - change (others (0%nat :: sched)) with (others sched).
    cbn [exec nth_error].
    pose proof (step_quiet _ h w Hq) as [Hw Hq'].
    destruct (step h w) as [h' w']. simpl in Hw, Hq'. subst w'.
    cbn [update]. now apply IH.
  - change (others (S j :: sched)) with (j :: others sched).
    cbn [exec nth_error].
    destruct (nth_error pool j) as [p|]; [|now apply IH].
    destruct (step p w) as [p' w']. cbn [update]. now apply IH.
Qed.

Section Liveness.

Variable isoformat : datetime -> string.

Lemma exec_health_head (sched : list nat) : forall h pool w,
  h = get_health isoformat \/ h = Ret (alive isoformat (clock w)) ->
  exists h',
    hd_error (fst (exec sched (h :: pool) w)) = Some h' /\
    (h' = get_health isoformat \/ h' = Ret (alive isoformat (clock w))).
Proof.
  induction sched as [|[|j] sched IH]; intros h pool w Hh.
  - now exists h.
  - cbn [exec nth_error].
    destruct Hh as [-> | ->]; cbn.
    + apply (IH _ pool w). now right.
    + apply (IH _ pool w). now right.
  - cbn [exec nth_error].
    destruct (nth_error pool j) as [p|]; [|now apply IH].
    pose proof (step_clock _ p w) as Hc.
    destruct (step p w) as [p' w']. simpl in Hc. cbn [update].
    rewrite <- Hc. apply IH. now rewrite Hc.
Qed.

(** [GET /health] in flight with requests of any kind, in any order: the
    other requests come to what they come to without it and leave the same
    world, and the health request, once it has returned, has answered 200
    with [ok] true and the rendering of the clock. *)
Theorem health_does_not_interfere sched (pool : list (prog response)) w :
  let after := exec sched (get_health isoformat :: pool) w in
  let without := exec (others sched) pool w in
  tl (fst after) = fst without /\
  snd after = snd without /\
  forall h r,
    hd_error (fst after) = Some h ->
    outcome h = Some r ->
    r = inl (mkResponse 200
               (JSONResponse
                  (JDict [("ok", JBool true);
                          ("ts", JStr (isoformat (clock w)))]))).
Proof.
  cbv zeta.
  assert (Hq : quiet (get_health isoformat)).
  { cbn. split; [exact I|]. intros _. exact I. }
  pose proof (exec_quiet_head _ sched (get_health isoformat) pool w Hq)
    as [H1 H2].
  split; [exact H1|]. split; [exact H2|].
  intros h r Hh Ho.
  pose proof (exec_health_head sched (get_health isoformat) pool w
                (or_introl eq_refl)) as [h' [Hh' Hi]].
  assert (h' = h) by congruence. subst h'.
  destruct Hi as [-> | ->]; cbn in Ho; [discriminate|].
  now injection Ho as <-.
Qed.

End Liveness.

(* ================================================================= *)
(** ** The further properties on the sample requests *)

Lemma missing_field_started_at :
  missing_field body_no_started_at [Key "workouts"; Idx 0; Key "started_at"].
Proof.
  eapply missing_in_workout; try reflexivity. cbn. tauto.
Defined.

Lemma missing_required_fields_rejected_started_at :
  exists es,
    validate_IngestPayload exact_int exact_float body_no_started_at = Err es /\
    In (mkError [Key "workouts"; Idx 0; Key "started_at"] missing) es.
Proof.
  apply (missing_required_fields_rejected exact_int exact_float
           body_no_started_at [Key "workouts"; Idx 0; Key "started_at"]
           missing_field_started_at).
Defined.


(** A workout without [ended_at] and with a [null] distance. *)
Lemma optional_workout_fields_stay_null_w2 :
  let m := [("source_workout_id", JStr "w2"); ("activity_type", JStr "yoga");
            ("started_at", JStr "2024-01-01T18:00:00Z");
            ("distance_m", JNull)] in
  let w := WorkoutDTO.mk "w2" "yoga" "2024-01-01T18:00:00Z" None None None None in
  validate_WorkoutDTO exact_float (JDict m) = Ok w /\
  json_get "distance_m" (dump_WorkoutDTO w) = Some JNull /\
  json_get "ended_at" (dump_WorkoutDTO w) = Some JNull.
Proof.
  cbv zeta. split; [reflexivity|]. split.
  - apply (optional_workout_fields_stay_null exact_float
             [("source_workout_id", JStr "w2"); ("activity_type", JStr "yoga");
              ("started_at", JStr "2024-01-01T18:00:00Z");
              ("distance_m", JNull)]
             (WorkoutDTO.mk "w2" "yoga" "2024-01-01T18:00:00Z" None None None None)
             "distance_m" eq_refl).
    + cbn. tauto.
    + right. reflexivity.
  - reflexivity.
Defined.

Lemma primary_key_kept_by_any_schedule_e1 :
  let request := post_ingest_healthkit exact_int exact_float body_e1 in
  let after := exec [0; 1; 0; 1; 0; 0; 0; 1; 1; 1]%nat [request; request] world0 in
  pk_unique (table world0) /\
  pk_unique (table (snd after)) /\
  forall pk, (List.length (rows_of pk (table (snd after))) <= 1)%nat.
Proof.
  cbv zeta. split; [constructor|].
  apply (primary_key_kept_by_any_schedule response
           [0; 1; 0; 1; 0; 0; 0; 1; 1; 1]%nat
           [post_ingest_healthkit exact_int exact_float body_e1;
            post_ingest_healthkit exact_int exact_float body_e1] world0).
  constructor.
Defined.

(** The example scenario stored, then sent again under the same event id
    with one workout and two metrics. *)
Lemma first_submission_wins_e1 :
  let w := snd (run (_insert_event payload_e1 "healthkit_bundle") world0) in
  let raw := model_dump payload_e1_again in
  let row := stored_event payload_e1 "healthkit_bundle" (clock world0) in
  select "e1" (table w) = Some row /\
  fst (run (post_ingest_healthkit exact_int exact_float raw) w)
    = inl (ok_response payload_e1_again) /\
  table (snd (run (post_ingest_healthkit exact_int exact_float raw) w))
    = table w /\
  select "e1" (table (snd (run (post_ingest_healthkit exact_int exact_float raw) w)))
    = Some row.
Proof.
  cbv zeta. split; [reflexivity|].
  apply (first_submission_wins exact_int exact_float
           (model_dump payload_e1_again) payload_e1_again
           (snd (run (_insert_event payload_e1 "healthkit_bundle") world0))
           (stored_event payload_e1 "healthkit_bundle" (clock world0)));
    reflexivity.
Defined.

(** The example scenario and a bundle entered by hand, served together. *)
Lemma stored_rows_are_healthkit_submissions_e1 :
  let raws := [model_dump payload_manual; body_e1] in
  let after := exec [0; 1; 1; 1; 1; 1; 0]%nat
                    (map (post_ingest_healthkit exact_int exact_float) raws)
                    world0 in
  let row := stored_event payload_e1 "healthkit_bundle" (clock world0) in
  table (snd after) = [row] /\
  exists payload,
    IngestPayload.source payload = Source.healthkit /\
    IngestEvent.id row = IngestPayload.event_id payload /\
    IngestEvent.source row = "healthkit" /\
    IngestEvent.event_type row = "healthkit_bundle" /\
    IngestEvent.payload_json row = model_dump payload.
Proof.
  cbv zeta. split; [reflexivity|].
  apply (stored_rows_are_healthkit_submissions exact_int exact_float
           [model_dump payload_manual; body_e1]
           [0; 1; 1; 1; 1; 1; 0]%nat world0).
  - constructor.
  - left. reflexivity.
Defined.


(* ================================================================= *)
(** * The contract on PostgreSQL *)

#[local] Arguments refused_text : simpl never.

Section InDatabase.

Variable H : forall X, event X -> world -> X * world.





End InDatabase.

(** ** The rows PostgreSQL takes *)

Lemma nul_free_uint d : nul_free (NilEmpty.string_of_uint d) = true.
Proof.
  induction d; simpl; auto.
Qed.

Lemma nul_free_str_of_int n : nul_free (str_of_int n) = true.
Proof.
  unfold str_of_int, NilZero.string_of_int, NilZero.string_of_uint.
  destruct (Z.to_int n) as [d|d]; destruct d; simpl; auto using nul_free_uint.
Qed.

Lemma nul_free_source s : nul_free (Source.value s) = true.
Proof.
  now destruct s.
Qed.


Lemma stored_event_refused payload event_type now :
  nul_free (IngestPayload.event_id payload) = true ->
  nul_free (IngestPayload.user_id payload) && nul_free event_type = false ->
  exists s, refused_text (stored_event payload event_type now) = Some s.
Proof.
  intros H1 H2. unfold refused_text, stored_event. cbn. rewrite H1. cbn.
  destruct (nul_free (IngestPayload.user_id payload)); cbn; [|eauto].
  rewrite nul_free_source, nul_free_str_of_int. cbn.
  cbn in H2. rewrite H2. cbn. eauto.
Qed.

(** ** [_insert_event] on PostgreSQL *)



Lemma pg_insert_event_refused_key payload event_type w :
  nul_free (IngestPayload.event_id payload) = false ->
  run_in (@pg_handle) (_insert_event payload event_type) w =
  (inr (DataError (IngestPayload.event_id payload)),
   logged [op_session; op_close] w).
Proof.
  intros Hk. unfold _insert_event. cbn. rewrite Hk. cbn.
  unfold logged. cbn. now rewrite <- !app_assoc.
Qed.

Lemma pg_insert_event_refused_row payload event_type w s :
  nul_free (IngestPayload.event_id payload) = true ->
  select (IngestPayload.event_id payload) (table w) = None ->
  refused_text (stored_event payload event_type (clock w)) = Some s ->
  run_in (@pg_handle) (_insert_event payload event_type) w =
  (inr (DataError s),
   logged [op_session; op_select (IngestPayload.event_id payload);
           op_rollback; op_close] w).
Proof.
  intros Hk Hs Hr. unfold _insert_event. cbn. rewrite Hk. cbn. rewrite Hs. cbn.
  unfold stored_event in Hr. rewrite Hr. cbn.
  unfold logged. cbn. now rewrite <- !app_assoc.
Qed.

Section OnPostgres.

Variable lax_int : json -> option Z.
Variable lax_float : json -> option spec_float.

Abbreviation pg_validate := (validate_IngestPayload lax_int lax_float).
Abbreviation pg_post := (post_ingest_healthkit lax_int lax_float).








End OnPostgres.

(** ** Requests in flight together on PostgreSQL *)

Section Interleaved.

Variable H : forall X, event X -> world -> X * world.

Hypothesis H_extends :
  forall X (e : event X) w, extends (table w) (table (snd (H X e w))).






End Interleaved.



Section TogetherOnPostgres.

Variable lax_int : json -> option Z.
Variable lax_float : json -> option spec_float.

Abbreviation pg_validate' := (validate_IngestPayload lax_int lax_float).
Abbreviation pg_post' := (post_ingest_healthkit lax_int lax_float).



End TogetherOnPostgres.

(** ** The two databases *)

Lemma pg_flush_taken pending : forall t,
  Forall (fun row => refused_text row = None) pending ->
  pg_flush pending t = flush pending t.
Proof.
  induction pending as [|row rest IH]; intros t Hp; simpl; [reflexivity|].
  inversion Hp as [|? ? Hrow Hrest]; subst. rewrite Hrow.
  destruct (select (IngestEvent.id row) t); [reflexivity|]. now apply IH.
Qed.

(** On keys and rows without a NUL character, PostgreSQL answers as the
    database that stores any text. *)
Lemma pg_handle_taken w :
  (forall pk, nul_free pk = true -> pg_handle (EGet pk) w = handle (EGet pk) w) /\
  (forall db, Forall (fun row => refused_text row = None) db ->
              pg_handle (ECommit db) w = handle (ECommit db) w) /\
  pg_handle EOpen w = handle EOpen w /\
  pg_handle EClose w = handle EClose w /\
  pg_handle ENow w = handle ENow w.
Proof.
  repeat split.
  - intros pk Hk. cbn. now rewrite Hk.
  - intros db Hdb. cbn. now rewrite (pg_flush_taken db (table w) Hdb).
Qed.

(** ** The contract on PostgreSQL, on the sample requests *)







(** The example scenario, the submission with a NUL, and the example
    scenario again, served in turn. *)
Lemma pg_served_in_turn_e1_nul_e1 :
  map (fun r => match r with
                | inl resp => Some (status_code resp)
                | inr _ => None
                end)
      (fst (serve_in_turn_in (@pg_handle)
              (map (post_ingest_healthkit exact_int exact_float)
                   [body_e1; body_nul; body_e1])
              world0))
  = [Some 200%Z; Some 500%Z; Some 200%Z].
Proof.
  reflexivity.
Qed.
